(** * Attendance report: a shallow embedding of [AttendanceReport.py] and
      [AttendanceReport_alternate.py]

    The development follows the source files function by function.  Python
    values are modelled as the code uses them: JSON strings as [string],
    [None]-able fields as [option], exceptions as the [Err] case of a small
    error monad, lists as [list], dictionaries in insertion order as
    association lists and sets as [gset] (membership only) or as a
    duplicate-free list in an unspecified iteration order.

    The two network requests and the reading and writing of files are not
    modelled: the functions take the decoded JSON documents.

    Strings are sequences of ASCII characters; digits and white space outside
    ASCII, which Python's [int] and [strptime] also accept, are outside the
    model. *)

From Stdlib Require Import ZArith QArith Ascii String.
From Stdlib Require SpecFloat.
From stdpp Require Import base option list sorting gmap strings.

Local Open Scope Z_scope.

Set Warnings "-clear-no-such-hyp".

(** ** Exceptions and the error monad *)

Inductive exn : Set :=
  | ValueError
  | TypeError
  | ZeroDivisionError
  | KeyError
  | UnboundLocalError.

Inductive result (A : Type) : Type :=
  | Ok (a : A)
  | Err (e : exn).

Arguments Ok {A} a.
Arguments Err {A} e.

#[global] Instance result_ret : MRet result := fun _ a => Ok a.
#[global] Instance result_bind : MBind result := fun _ _ f m =>
  match m with
  | Ok a => f a
  | Err e => Err e
  end.

#[global] Instance result_fmap : FMap result := fun _ _ f m =>
  match m with
  | Ok a => Ok (f a)
  | Err e => Err e
  end.

Definition is_Ok {A} (r : result A) : Prop := ∃ a, r = Ok a.
Definition is_Err {A} (r : result A) : Prop := ∃ e, r = Err e.

(** [for x in xs: body] over a loop state, stopping at the first exception. *)
Fixpoint for_each {A S : Type} (body : S → A → result S) (xs : list A) (s : S)
  : result S :=
  match xs with
  | [] => Ok s
  | x :: xs' => s' ← body s x; for_each body xs' s'
  end.

(** ** The parts of Python's library the code calls *)

Module Py.

Definition code (c : ascii) : Z := Z.of_N (N_of_ascii c).

Definition is_digit (c : ascii) : bool := (48 <=? code c) && (code c <=? 57).

Definition digit (c : ascii) : Z := code c - 48.

(** White space as [int] strips it from an ASCII string: tab to carriage
    return, and the space.  (The separators 0x1c-0x1f are white space for
    [str.isspace] but not here: [int] refuses a string that starts or ends
    with one.) *)
Definition is_space (c : ascii) : bool :=
  ((9 <=? code c) && (code c <=? 13)) || (code c =? 32).

Definition chars (s : string) : list ascii := list_ascii_of_string s.

(** [s.split('-')[0]]: the part of [s] before its first hyphen, all of [s]
    when it has none. *)
Fixpoint split_head (sep : ascii) (s : string) : string :=
  match s with
  | EmptyString => EmptyString
  | String c s' =>
      if Ascii.eqb c sep then EmptyString else String c (split_head sep s')
  end.

Fixpoint lstrip (l : list ascii) : list ascii :=
  match l with
  | c :: l' => if is_space c then lstrip l' else l
  | [] => []
  end.

Definition strip (l : list ascii) : list ascii :=
  reverse (lstrip (reverse (lstrip l))).

(** Decimal digits, single underscores allowed between two digits. *)
Fixpoint int_digits (acc : Z) (after_digit : bool) (l : list ascii)
  : option Z :=
  match l with
  | [] => if after_digit then Some acc else None
  | c :: l' =>
      if is_digit c then int_digits (10 * acc + digit c) true l'
      else if Ascii.eqb c "_" then
        if after_digit then int_digits acc false l' else None
      else None
  end.

(** The number of decimal digits that [int] converts at most:
    [sys.get_int_max_str_digits()], as the interpreter sets it when it is
    not configured otherwise. *)
Definition max_str_digits : Z := 4300.

Fixpoint count_digits (l : list ascii) : Z :=
  match l with
  | [] => 0
  | c :: l' => (if is_digit c then 1 else 0) + count_digits l'
  end.

(** The digits after the sign; the limit counts the digits, not the
    underscores, the sign or the white space. *)
Definition int_unsigned (l : list ascii) : option Z :=
  v ← int_digits 0 false l;
  guard (count_digits l <= max_str_digits);;
  Some v.

(** [int(s)] in base ten: surrounding white space, an optional sign, then
    the digits.  [None] stands for [ValueError]. *)
Definition int (s : string) : option Z :=
  match strip (chars s) with
  | c :: l =>
      if Ascii.eqb c "-" then Z.opp <$> int_unsigned l
      else if Ascii.eqb c "+" then int_unsigned l
      else int_unsigned (c :: l)
  | [] => None
  end.

(** *** Times of day *)

Record time : Set := mk_time { hour : Z; minute : Z; second : Z }.

Definition time_lt (a b : time) : bool :=
  (hour a <? hour b)
  || ((hour a =? hour b)
      && ((minute a <? minute b)
          || ((minute a =? minute b) && (second a <? second b)))).

Definition time_le (a b : time) : bool := negb (time_lt b a).

Definition seconds_of (t : time) : Z := hour t * 3600 + minute t * 60 + second t.

(** One or two digits, as the directives [%H], [%M], [%S], [%m] and [%d]
    read them: each of their patterns is a choice between two-digit and
    one-digit forms, and what follows the directive in the formats used
    here is a separator or the end of the string, so taking the second
    digit whenever there is one and checking the range afterwards accepts
    the same strings. *)
Definition read_1_2 (l : list ascii) : option (Z * list ascii) :=
  match l with
  | c1 :: c2 :: l' =>
      if is_digit c1 then
        if is_digit c2 then Some (10 * digit c1 + digit c2, l')
        else Some (digit c1, c2 :: l')
      else None
  | [c1] => if is_digit c1 then Some (digit c1, []) else None
  | [] => None
  end.

Definition expect (sep : ascii) (l : list ascii) : option (list ascii) :=
  match l with
  | c :: l' => if Ascii.eqb c sep then Some l' else None
  | [] => None
  end.

(** [datetime.strptime(s, "%H:%M:%S")], as far as the time of day goes.
    [%S] also matches 60 and 61, which the [datetime] constructor then
    refuses. *)
Definition parse_time (s : string) : option time :=
  '(h, l) ← read_1_2 (chars s);
  guard (h <= 23);;
  l ← expect ":" l;
  '(m, l) ← read_1_2 l;
  guard (m <= 59);;
  l ← expect ":" l;
  '(sec, l) ← read_1_2 l;
  guard (sec <= 59);;
  guard (l = []);;
  Some (mk_time h m sec).

(** *** Calendar dates, after [datetime.py] *)

Record date : Set := mk_date { year : Z; month : Z; day : Z }.

Definition is_leap (y : Z) : bool :=
  (y mod 4 =? 0) && (negb (y mod 100 =? 0) || (y mod 400 =? 0)).

Definition days_in_month (y m : Z) : Z :=
  if (m =? 2) && is_leap y then 29
  else nth (Z.to_nat m) [0; 31; 28; 31; 30; 31; 30; 31; 31; 30; 31; 30; 31] 0.

Definition days_before_year (y : Z) : Z :=
  let y := y - 1 in y * 365 + y / 4 - y / 100 + y / 400.

Definition days_before_month (y m : Z) : Z :=
  nth (Z.to_nat m) [0; 0; 31; 59; 90; 120; 151; 181; 212; 243; 273; 304; 334] 0
  + (if (2 <? m) && is_leap y then 1 else 0).

Definition ymd2ord (y m d : Z) : Z :=
  days_before_year y + days_before_month y m + d.

Definition toordinal (d : date) : Z := ymd2ord (year d) (month d) (day d).

(** Ordinal of the Monday that starts ISO week 1 of year [y]. *)
Definition isoweek1monday (y : Z) : Z :=
  let firstday := ymd2ord y 1 1 in
  let firstweekday := (firstday + 6) mod 7 in
  let week1monday := firstday - firstweekday in
  if 3 <? firstweekday then week1monday + 7 else week1monday.

(** [d.isocalendar().week] *)
Definition iso_week (d : date) : Z :=
  let today := toordinal d in
  let week := (today - isoweek1monday (year d)) / 7 in
  if week <? 0 then (today - isoweek1monday (year d - 1)) / 7 + 1
  else if (52 <=? week) && (isoweek1monday (year d + 1) <=? today) then 1
  else week + 1.

Definition read_digit (l : list ascii) : option (Z * list ascii) :=
  match l with
  | c :: l' => if is_digit c then Some (digit c, l') else None
  | [] => None
  end.

(** [%Y]: exactly four digits. *)
Definition read_4 (l : list ascii) : option (Z * list ascii) :=
  '(a, l) ← read_digit l;
  '(b, l) ← read_digit l;
  '(c, l) ← read_digit l;
  '(d, l) ← read_digit l;
  Some (1000 * a + 100 * b + 10 * c + d, l).

(** [%d]: one or two digits, or a space and one non-zero digit. *)
Definition read_day (l : list ascii) : option (Z * list ascii) :=
  match l with
  | c :: l' => if Ascii.eqb c " " then read_digit l' else read_1_2 l
  | [] => None
  end.

(** [datetime.strptime(s, "%Y-%m-%d")], with the range checks of the
    pattern and of the [datetime] constructor. *)
Definition parse_date (s : string) : option date :=
  '(y, l) ← read_4 (chars s);
  l ← expect "-" l;
  '(m, l) ← read_1_2 l;
  guard (1 <= m <= 12);;
  l ← expect "-" l;
  '(d, l) ← read_day l;
  guard (1 <= d <= 31);;
  guard (l = []);;
  guard (1 <= y);;
  guard (d <= days_in_month y m);;
  Some (mk_date y m d).

(** [strptime] raises [TypeError] on [None] and [ValueError] on a string
    that does not match. *)
Definition strptime {A} (parse : string → option A) (arg : option string)
  : result A :=
  match arg with
  | None => Err TypeError
  | Some s =>
      match parse s with
      | Some v => Ok v
      | None => Err ValueError
      end
  end.

End Py.

(** ** Numbers

    The hours are Python floats.  The code only adds and divides them, so the
    embedding is generic in the arithmetic: a carrier with a zero, an
    addition, a division and the conversion from integers.  The laws that
    exact arithmetic has, and that rounding breaks, are a separate class, so
    that a theorem shows whether it needs them. *)

Class Number (F : Type) := {
  num_zero : F;
  num_add : F → F → F;
  num_div : F → F → F;
  num_of_int : Z → F;
}.

Class ExactAddition (F : Type) `{Number F} : Prop := {
  num_add_assoc : ∀ x y z : F, num_add x (num_add y z) = num_add (num_add x y) z;
  num_add_comm : ∀ x y : F, num_add x y = num_add y x;
  num_add_zero_l : ∀ x : F, num_add num_zero x = x;
}.

#[global] Instance Q_Number : Number Q := {
  num_zero := 0%Q;
  num_add := Qplus;
  num_div := Qdiv;
  num_of_int := inject_Z;
}.

(** Python's floats are the binary64 numbers of IEEE 754: 53 bits of
    precision, exponents up to 1024, sums and quotients rounded to the
    nearest number, ties to even.  [float(n)] is the number nearest to [n].
    The divisions of the code are by 3600 and by a positive count, so
    Python's check for a zero divisor never applies. *)
Definition float : Set := SpecFloat.spec_float.

Definition float_of_int (n : Z) : float :=
  SpecFloat.binary_normalize 53 1024 n 0 false.

Definition binary64 : Number float := {|
  num_zero := float_of_int 0;
  num_add := SpecFloat.SFadd 53 1024;
  num_div := SpecFloat.SFdiv 53 1024;
  num_of_int := float_of_int;
|}.

(** ** Sets that are iterated

    The order in which Python iterates over a set of strings depends on the
    hashes of its elements.  The embedding takes it as given: [set_iter l] is
    the iteration order of the set built from the elements of [l], some
    duplicate-free list with the same elements. *)

Class SetOrder (A : Type) := {
  set_iter : list A → list A;
  set_iter_NoDup : ∀ l, NoDup (set_iter l);
  set_iter_elem_of : ∀ l x, x ∈ set_iter l ↔ x ∈ l;
}.

(** ** Data model: the JSON objects the code reads and writes *)

Record Employee : Set := {
  record_id : Z;
  name : string;
  work_id_number : string;
  email_address : string;
  emp_country : string;
  phone_number : string;
}.

Record AttendanceRecord : Set := {
  employee_record_id : Z;
  date : string;
  clock_in : option string;
  clock_out : option string;
}.

(** [max_temp] is a JSON number; the code compares it with [40.0], which is
    exact for integers and floats alike, so it is a rational here. *)
Record WeatherRecord : Set := {
  w_country : string;
  w_date : string;
  condition : string;
  max_temp : Q;
}.

Record EventRecord : Set := {
  ev_country : string;
  ev_event_date : string;
  ev_event_name : string;
}.

(** The dictionary [event_reason] that [check_dates_against_events] builds. *)
Record EventReason : Set := {
  country : string;
  event_name : string;
  event_date : string;
}.

(** The dictionary [employee_information]: the six identity fields copied from
    the employee, the average and the events. *)
Record Report (F : Type) : Type := {
  employee : Employee;
  average_hours_per_week : F;
  events : list EventReason;
}.

Arguments employee {F} _.
Arguments average_hours_per_week {F} _.
Arguments events {F} _.

#[global] Instance EventReason_eq_dec : EqDecision EventReason.
Proof. solve_decision. Defined.

(** ** [AttendanceReport.py] *)

(** [int(date_val.split('-')[0])] *)
Definition date_year (date_val : string) : option Z :=
  Py.int (Py.split_head "-" date_val).

Definition check_if_date_is_in_year (date_val : string) (year : Z) : result bool :=
  match date_year date_val with
  | Some date_year => Ok (date_year =? year)
  | None => Err ValueError
  end.

Definition remove_duplicate_events_step
    (st : gset string * list EventReason) (event : EventReason)
  : gset string * list EventReason :=
  let '(unique_dates, unique_events) := st in
  if decide (event_date event ∈ unique_dates) then st
  else ({[event_date event]} ∪ unique_dates, unique_events ++ [event]).

Definition remove_duplicate_events (event_data : list EventReason)
  : list EventReason :=
  (foldl remove_duplicate_events_step (∅, []) event_data).2.

Section Hours.
Context {F : Type} `{Number F}.

Definition calculate_total_hours (start_time stop_time : string) : result F :=
  start ← Py.strptime Py.parse_time (Some start_time);
  stop ← Py.strptime Py.parse_time (Some stop_time);
  let duration := Py.seconds_of stop - Py.seconds_of start in
  Ok (num_div (num_of_int duration) (num_of_int 3600)).

(** A dictionary from week numbers to hours, in insertion order. *)
Definition week_dict : Type := list (Z * F).

Fixpoint dict_get (k : Z) (d : week_dict) : option F :=
  match d with
  | [] => None
  | (k', v) :: d' => if k =? k' then Some v else dict_get k d'
  end.

Fixpoint dict_set (k : Z) (v : F) (d : week_dict) : week_dict :=
  match d with
  | [] => [(k, v)]
  | (k', v') :: d' =>
      if k =? k' then (k', v) :: d' else (k', v') :: dict_set k v d'
  end.

Definition dict_item (k : Z) (d : week_dict) : result F :=
  match dict_get k d with
  | Some v => Ok v
  | None => Err KeyError
  end.

(** [sum(xs)]: from 0, adding from the left. *)
Definition py_sum (xs : list F) : F := foldl num_add num_zero xs.

Definition calculate_average_hours_per_week_step
    (total_hours_per_week : week_dict) (attendance : AttendanceRecord)
  : result week_dict :=
  total_hours ←
    match clock_in attendance, clock_out attendance with
    | Some start_time, Some stop_time =>
        calculate_total_hours start_time stop_time
    | _, _ => Ok num_zero
    end;
  date ← Py.strptime Py.parse_date (Some (date attendance));
  let week_key := Py.iso_week date in
  let total_hours_per_week :=
    if dict_get week_key total_hours_per_week is Some _
    then total_hours_per_week
    else dict_set week_key num_zero total_hours_per_week in
  week_total ← dict_item week_key total_hours_per_week;
  Ok (dict_set week_key (num_add week_total total_hours) total_hours_per_week).

Definition calculate_average_hours_per_week
    (attendance_data : list AttendanceRecord) : result F :=
  total_hours_per_week ←
    for_each calculate_average_hours_per_week_step attendance_data [];
  let total_hours := py_sum total_hours_per_week.*2 in
  if decide (length total_hours_per_week = 0%nat) then Err ZeroDivisionError
  else Ok (num_div total_hours
             (num_of_int (Z.of_nat (length total_hours_per_week)))).

End Hours.

Definition get_employee_attendance_data_step (record_id : Z) (year : Z)
    (employee_data : list AttendanceRecord) (emp : AttendanceRecord)
  : result (list AttendanceRecord) :=
  if decide (employee_record_id emp = record_id) then
    in_year ← check_if_date_is_in_year (date emp) year;
    if in_year : bool then Ok (employee_data ++ [emp]) else Ok employee_data
  else Ok employee_data.

Definition get_employee_attendance_data (record_id : Z)
    (employee_attendance_data : list AttendanceRecord) (year : Z)
  : result (list AttendanceRecord) :=
  for_each (get_employee_attendance_data_step record_id year)
    employee_attendance_data [].

Definition start_time : Py.time := Py.mk_time 8 15 0.
Definition end_time : Py.time := Py.mk_time 16 0 0.

Definition check_employee_times_step
    (delinquent_data : list string) (attendance : AttendanceRecord)
  : result (list string) :=
  match clock_in attendance, clock_out attendance with
  | None, None => Ok (delinquent_data ++ [date attendance])
  | _, _ =>
      clock_in ← Py.strptime Py.parse_time (clock_in attendance);
      clock_out ← Py.strptime Py.parse_time (clock_out attendance);
      if Py.time_lt start_time clock_in || Py.time_lt clock_out end_time
      then Ok (delinquent_data ++ [date attendance])
      else Ok delinquent_data
  end.

Definition check_employee_times
    (employee_attendance_data : list AttendanceRecord) : result (list string) :=
  for_each check_employee_times_step employee_attendance_data [].

Definition bad_weather_conditions : list string :=
  ["hail"; "thunderstorm"; "blizzard"; "hurricane"]%string.

(** The condition of the [weather_set] comprehension; [and] evaluates the
    year check only for rows of the employee's country. *)
Definition is_severe_weather (country : string) (weather : WeatherRecord)
  : result bool :=
  if decide (w_country weather = country) then
    in_year ← check_if_date_is_in_year (w_date weather) 2023;
    Ok ((in_year : bool)
        && (bool_decide (condition weather ∈ bad_weather_conditions)
            || negb (Qle_bool (max_temp weather) 40)))
  else Ok false.

Definition weather_set_step (country : string)
    (weather_set : gset string) (weather : WeatherRecord) : result (gset string) :=
  severe ← is_severe_weather country weather;
  Ok (if severe : bool then {[w_date weather]} ∪ weather_set else weather_set).

(** The condition of the [event_set] comprehension. *)
Definition is_event_of (country : string) (event : EventRecord) : result bool :=
  if decide (ev_country event = country) then
    check_if_date_is_in_year (ev_event_date event) 2023
  else Ok false.

Definition event_set_step (country : string)
    (event_set : list (string * string)) (event : EventRecord)
  : result (list (string * string)) :=
  keep ← is_event_of country event;
  Ok (if keep : bool
      then event_set ++ [(ev_event_date event, ev_event_name event)]
      else event_set).

Definition window : list Z := [-1; 0; 1].

(** The inner loop: the events of [event_set] around one delinquent date. *)
Definition event_reason_step (country : string) (no_excuse_date_obj : Py.date)
    (event_reason_list : list EventReason) (event : string * string)
  : result (list EventReason) :=
  let '(event_date, event_name) := event in
  event_date_obj ← Py.strptime Py.parse_date (Some event_date);
  let difference := Py.toordinal event_date_obj - Py.toordinal no_excuse_date_obj in
  if decide (difference ∈ window) then
    Ok (event_reason_list
          ++ [{| country := country; event_name := event_name;
                 event_date := event_date |}])
  else Ok event_reason_list.

(** The outer loop body: one unexcused delinquent date. *)
Definition no_excuse_date_step (country : string)
    (event_set : list (string * string))
    (event_reason_list : list EventReason) (no_excuse_date : string)
  : result (list EventReason) :=
  no_excuse_date_obj ← Py.strptime Py.parse_date (Some no_excuse_date);
  for_each (event_reason_step country no_excuse_date_obj) event_set
    event_reason_list.

Section Pipeline.
Context `{SetOrder string} `{SetOrder (string * string)}.

Definition weather_set_of (weather_data : list WeatherRecord) (country : string)
  : result (gset string) :=
  for_each (weather_set_step country) weather_data ∅.

Definition event_set_of (events_data : list EventRecord) (country : string)
  : result (list (string * string)) :=
  set_iter <$> for_each (event_set_step country) events_data [].

(** [list(set(poor_employee_attendance_data) - weather_set)] *)
Definition no_weather_excuse_list_of (weather_set : gset string)
    (poor_employee_attendance_data : list string) : list string :=
  let poor_employee_attendance_set := set_iter poor_employee_attendance_data in
  set_iter (filter (λ d, d ∉ weather_set) poor_employee_attendance_set).

(** [event_reason_list] as it is before [remove_duplicate_events]. *)
Definition event_candidates (weather_data : list WeatherRecord)
    (events_data : list EventRecord)
    (poor_employee_attendance_data : list string) (country : string)
  : result (list EventReason) :=
  weather_set ← weather_set_of weather_data country;
  event_set ← event_set_of events_data country;
  let no_weather_excuse_list :=
    no_weather_excuse_list_of weather_set poor_employee_attendance_data in
  for_each (no_excuse_date_step country event_set) no_weather_excuse_list [].

Definition check_dates_against_events (weather_data : list WeatherRecord)
    (events_data : list EventRecord)
    (poor_employee_attendance_data : list string) (country : string)
  : result (list EventReason) :=
  remove_duplicate_events
    <$> event_candidates weather_data events_data
          poor_employee_attendance_data country.

Context {F : Type} `{Number F}.

(** A local variable of [identify_delinquent_employees] that the [try]
    block may have left unbound. *)
Definition local {A} (v : option A) : result A :=
  match v with
  | Some a => Ok a
  | None => Err UnboundLocalError
  end.

(** The body of the loop over [employee_data].  [weather_data] and
    [events_data] are what the two requests left in the local variables:
    [None] when the request failed or was not reached. *)
Definition identify_delinquent_employees_step
    (weather_data : option (list WeatherRecord))
    (events_data : option (list EventRecord))
    (attendance_data : list AttendanceRecord)
    (wayward_employees : list (Report F)) (employee : Employee)
  : result (list (Report F)) :=
  let country := emp_country employee in
  employee_attendance_data ←
    get_employee_attendance_data (record_id employee) attendance_data 2023;
  poor_employee_attendance_data ← check_employee_times employee_attendance_data;
  weather ← local weather_data;
  events ← local events_data;
  events_cross_reference ←
    check_dates_against_events weather events poor_employee_attendance_data
      country;
  average_hours_worked_per_week ←
    calculate_average_hours_per_week employee_attendance_data;
  if decide (3 < length events_cross_reference)%nat then
    Ok (wayward_employees
          ++ [{| employee := employee;
                 average_hours_per_week := average_hours_worked_per_week;
                 events := events_cross_reference |}])
  else Ok wayward_employees.

Definition identify_delinquent_employees
    (weather_data : option (list WeatherRecord))
    (events_data : option (list EventRecord))
    (employee_data : list Employee) (attendance_data : list AttendanceRecord)
  : result (list (Report F)) :=
  for_each
    (identify_delinquent_employees_step weather_data events_data
       attendance_data)
    employee_data [].

End Pipeline.

(** ** [AttendanceReport_alternate.py]

    The same pipeline on pandas data frames.  A data frame is the list of its
    rows.  What pandas does is taken from its documentation and sources:
    [pd.to_datetime] of a column of date strings is modelled on the
    [YYYY-MM-DD] spelling and raises on any other string of the column, and
    no statement below rests on that error; with the format [%H:%M:%S] it
    reads the pattern of [strptime], counts seconds 60 and 61 on, and reads
    [None], the empty string and the spellings of a missing value as [NaT];
    a column that [.dt.time] fills with [NaT] only is a column of
    timestamps, which cannot be compared with a [datetime.time], and in any
    other column a comparison is false at each [NaT]; [groupby] orders the
    groups by key; the mean of no value is [NaN]; a data frame built from an
    empty list has no columns, so that selecting one raises [KeyError]; a
    column of [datetime.time] values, as [check_employee_times] leaves it in
    the frame it was given, is read back by [pd.to_datetime] as the same
    times. *)

Module Alternate.

(** The attendance frame once its [date] column holds timestamps. *)
Record AttendanceRow : Set := {
  row_employee_record_id : Z;
  row_date : Py.date;
  row_clock_in : option string;
  row_clock_out : option string;
}.

(** The same row once [check_employee_times] has replaced the two time
    columns of the frame it was given; [None] is [NaT]. *)
Record TimedRow : Set := {
  t_employee_record_id : Z;
  t_date : Py.date;
  t_clock_in : option Py.time;
  t_clock_out : option Py.time;
}.

(** Elements of the two sets that [check_dates_against_events] intersects:
    the attendance dates are timestamps, the weather dates are the strings
    of the JSON document. *)
Inductive value : Set :=
  | Timestamp (d : Py.date)
  | Str (s : string).

#[global] Instance date_eq_dec : EqDecision Py.date.
Proof. solve_decision. Defined.
#[global] Instance value_eq_dec : EqDecision value.
Proof. solve_decision. Defined.

Definition to_datetime (s : string) : result Py.date :=
  Py.strptime Py.parse_date (Some s).

(** Error-stopping map over a column. *)
Fixpoint column {A B} (f : A → result B) (l : list A) : result (list B) :=
  match l with
  | [] => Ok []
  | x :: l' => y ← f x; ys ← column f l'; Ok (y :: ys)
  end.

Definition frame {A} (data : list A) : result (list A) :=
  match data with
  | [] => Err KeyError
  | _ => Ok data
  end.

Definition get_employee_attendance_data (df : list AttendanceRecord)
    (record_id year : Z) : result (list AttendanceRow) :=
  df ← frame df;
  df ← column (λ r, d ← to_datetime (date r);
                    Ok {| row_employee_record_id := employee_record_id r;
                          row_date := d;
                          row_clock_in := clock_in r;
                          row_clock_out := clock_out r |}) df;
  Ok (filter (λ r, row_employee_record_id r = record_id
                   ∧ Py.year (row_date r) = year) df).

(** The strings that [pd.to_datetime] reads as a missing value, as it
    reads the empty string. *)
Definition nat_strings : list string :=
  ["NaT"; "nat"; "NAT"; "nan"; "NaN"; "NAN"]%string.

Definition is_missing (s : string) : Prop := s = EmptyString ∨ s ∈ nat_strings.

#[global] Instance is_missing_dec s : Decision (is_missing s).
Proof. unfold is_missing. apply _. Defined.

(** The format [%H:%M:%S] as pandas reads it, followed by [.dt.time].  The
    pattern is that of [strptime], whose [%S] also matches 60 and 61; pandas
    does not refuse these but counts the seconds on from 1900-01-01, into the
    next minute and past midnight, and [.dt.time] keeps the time of day. *)
Definition read_time (s : string) : option Py.time :=
  '(h, l) ← Py.read_1_2 (Py.chars s);
  guard (h <= 23);;
  l ← Py.expect ":" l;
  '(m, l) ← Py.read_1_2 l;
  guard (m <= 59);;
  l ← Py.expect ":" l;
  '(sec, l) ← Py.read_1_2 l;
  guard (sec <= 61);;
  guard (l = []);;
  let t := (h * 3600 + m * 60 + sec) mod 86400 in
  Some (Py.mk_time (t / 3600) (t / 60 mod 60) (t mod 60)).

(** [pd.to_datetime(x, format='%H:%M:%S').dt.time] on one cell: [None] is
    [NaT]. *)
Definition to_time (cell : option string) : result (option Py.time) :=
  match cell with
  | None => Ok None
  | Some s =>
      if decide (is_missing s) then Ok None
      else match read_time s with
           | Some t => Ok (Some t)
           | None => Err ValueError
           end
  end.

(** A column of a frame with rows that holds [NaT] and nothing else.  The
    values that [.dt.time] returns are typed by what they are, and such a
    column becomes a column of timestamps. *)
Definition only_NaT (col : list (option Py.time)) : Prop :=
  col ≠ [] ∧ Forall (λ cell, cell = None) col.

#[global] Instance only_NaT_dec col : Decision (only_NaT col).
Proof. unfold only_NaT. apply _. Defined.

Definition after (threshold : Py.time) (cell : option Py.time) : bool :=
  match cell with
  | Some t => Py.time_lt threshold t
  | None => false
  end.

Definition before (threshold : Py.time) (cell : option Py.time) : bool :=
  match cell with
  | Some t => Py.time_lt t threshold
  | None => false
  end.

(** Returns the concatenated frame and the argument frame as the two
    column assignments have left it.  Comparing a column of timestamps with
    a [datetime.time] raises [TypeError]; in a column of [datetime.time]
    values and [NaT], the comparison is false at each [NaT]. *)
Definition check_employee_times (df : list AttendanceRow)
  : result (list TimedRow * list TimedRow) :=
  clock_ins ← column (λ r, to_time (row_clock_in r)) df;
  clock_outs ← column (λ r, to_time (row_clock_out r)) df;
  if decide (only_NaT clock_ins ∨ only_NaT clock_outs) then Err TypeError else
  let df :=
    zip_with (λ r '(ci, co),
                {| t_employee_record_id := row_employee_record_id r;
                   t_date := row_date r;
                   t_clock_in := ci; t_clock_out := co |})
      df (zip clock_ins clock_outs) in
  let delinquent_days :=
    filter (λ r, after start_time (t_clock_in r)
                 || before end_time (t_clock_out r)) df in
  let absent_days :=
    filter (λ r, t_clock_in r = None ∨ t_clock_out r = None) df in
  Ok (delinquent_days ++ absent_days, df).

Definition digit_char (d : Z) : ascii := ascii_of_N (Z.to_N (48 + d mod 10)).

Definition pad2 (n : Z) : string :=
  String (digit_char (n / 10)) (String (digit_char n) EmptyString).

Definition pad4 (n : Z) : string :=
  String (digit_char (n / 1000)) (String (digit_char (n / 100)) (pad2 n)).

(** [strftime('%Y.%m.%d')] *)
Definition strftime_dots (d : Py.date) : string :=
  (pad4 (Py.year d) +:+ "." +:+ pad2 (Py.month d) +:+ "." +:+ pad2 (Py.day d))%string.

Definition is_bad_weather (country : string) (w : WeatherRecord) : Prop :=
  w_country w = country
  ∧ (condition w ∈ bad_weather_conditions ∨ negb (Qle_bool (max_temp w) 40)).

#[global] Instance is_bad_weather_dec country w :
  Decision (is_bad_weather country w).
Proof. unfold is_bad_weather. apply _. Defined.

(** [set(attendance_df['date']).intersection(set(filtered_weather_df['date']))] *)
Definition common_dates_of (attendance_df : list TimedRow)
    (filtered_weather_df : list WeatherRecord) : list value :=
  let weather_dates : list value := (λ w, Str (w_date w)) <$> filtered_weather_df in
  let attendance_dates : list value :=
    (λ r, Timestamp (t_date r)) <$> attendance_df in
  filter (λ v : value, v ∈ weather_dates) attendance_dates.

(** The two nested loops that fill [event_info]. *)
Definition event_info_of (country : string) (attendance_df : list TimedRow)
    (filtered_events_df : list (EventRecord * Py.date)) : list EventReason :=
  attendance_row ← attendance_df;
  let attendance_date := t_date attendance_row in
  event_reason_row ←
    filter (λ e : EventRecord * Py.date,
              Py.toordinal e.2 - Py.toordinal attendance_date ∈ window)
      filtered_events_df;
  [{| event_date := strftime_dots event_reason_row.2;
      event_name := ev_event_name event_reason_row.1;
      country := country |}].

Definition check_dates_against_events (weather_df : list WeatherRecord)
    (events_df : list EventRecord) (attendance_df : list TimedRow)
    (country : string) : result (list EventReason) :=
  weather_df ← frame weather_df;
  let filtered_weather_df := filter (is_bad_weather country) weather_df in
  let common_dates := common_dates_of attendance_df filtered_weather_df in
  let attendance_df :=
    filter (λ r : TimedRow, Timestamp (t_date r) ∉ common_dates) attendance_df in
  events_df ← frame events_df;
  events_df ←
    column (λ e : EventRecord,
              d ← to_datetime (ev_event_date e); Ok (e, d)) events_df;
  let filtered_events_df :=
    filter (λ e : EventRecord * Py.date,
              ev_country e.1 = country ∧ Py.year e.2 = 2023) events_df in
  Ok (remove_duplicate_events
        (event_info_of country attendance_df filtered_events_df)).

Section Hours.
Context {F : Type} `{Number F}.

Definition duration (r : TimedRow) : F :=
  match t_clock_in r, t_clock_out r with
  | Some start, Some stop =>
      num_div (num_of_int (Py.seconds_of stop - Py.seconds_of start))
        (num_of_int 3600)
  | _, _ => num_zero
  end.

(** [None] is [NaN], the mean of an empty series. *)
Definition calculate_average_hours_per_week (attendance_df : list TimedRow)
  : option F :=
  let week_number r := Py.iso_week (t_date r) in
  let weeks := merge_sort Z.le (remove_dups (week_number <$> attendance_df)) in
  let weekly_hours :=
    (λ w, py_sum (duration <$> filter (λ r, week_number r = w) attendance_df))
      <$> weeks in
  match weeks with
  | [] => None
  | _ => Some (num_div (py_sum weekly_hours)
                 (num_of_int (Z.of_nat (length weekly_hours))))
  end.

Definition analyze_data_step
    (attendance_df : list AttendanceRecord)
    (weather_df : option (list WeatherRecord))
    (events_df : option (list EventRecord))
    (wayward_employees : list (Report (option F))) (employee : Employee)
  : result (list (Report (option F))) :=
  let country := emp_country employee in
  emp_attendance_df ←
    get_employee_attendance_data attendance_df (record_id employee) 2023;
  '(poor_employee_attendance_df, emp_attendance_df) ←
    check_employee_times emp_attendance_df;
  weather_df ← local weather_df;
  events_df ← local events_df;
  events_cross_reference ←
    check_dates_against_events weather_df events_df
      poor_employee_attendance_df country;
  let average_hours_per_week :=
    calculate_average_hours_per_week emp_attendance_df in
  if decide (3 < length events_cross_reference)%nat then
    Ok (wayward_employees
          ++ [{| employee := employee;
                 average_hours_per_week := average_hours_per_week;
                 events := events_cross_reference |}])
  else Ok wayward_employees.

Definition analyze_data (employee_data : list Employee)
    (attendance_df : list AttendanceRecord)
    (weather_df : option (list WeatherRecord))
    (events_df : option (list EventRecord))
  : result (list (Report (option F))) :=
  for_each (analyze_data_step attendance_df weather_df events_df)
    employee_data [].

End Hours.

End Alternate.

(** ** Concrete instances, for evaluating the pipelines *)

(** One admissible iteration order: the distinct elements in the order of
    their first insertion. *)
Program Definition first_occurrence_order {A} `{EqDecision A} : SetOrder A :=
  {| set_iter := remove_dups |}.
Next Obligation. intros. apply NoDup_remove_dups. Qed.
Next Obligation. intros. apply elem_of_remove_dups. Qed.

(** Another one: the reverse of the former. *)
Program Definition last_inserted_first_order {A} `{EqDecision A} : SetOrder A :=
  {| set_iter l := reverse (remove_dups l) |}.
Next Obligation.
  intros. rewrite reverse_Permutation. apply NoDup_remove_dups.
Qed.
Next Obligation. intros. rewrite elem_of_reverse. apply elem_of_remove_dups. Qed.

(** * Vocabulary of the statements *)

(** ** Classification, weather, events *)

(** What the loop of [remove_duplicate_events] maintains, [done] being the
    events read so far. *)
Definition dedup_inv (done : list EventReason)
    (st : gset string * list EventReason) : Prop :=
  st.1 = list_to_set (event_date <$> done)
  ∧ st.2 `sublist_of` done
  ∧ NoDup (event_date <$> st.2)
  ∧ ∀ d, d ∈ event_date <$> st.2 ↔ d ∈ event_date <$> done.

(** A row belongs to the employee and to the year. *)
Definition belongs_to (record_id year : Z) (r : AttendanceRecord) : Prop :=
  employee_record_id r = record_id ∧ date_year (date r) = Some year.

#[global] Instance belongs_to_dec record_id year r :
  Decision (belongs_to record_id year r).
Proof. unfold belongs_to. apply _. Defined.

Definition time_in_range (t : Py.time) : Prop :=
  0 <= Py.hour t <= 23 ∧ 0 <= Py.minute t <= 59 ∧ 0 <= Py.second t <= 59.

(** Both times of the row, when both are present and [strptime] accepts
    them. *)
Definition clock_times (r : AttendanceRecord) : option (Py.time * Py.time) :=
  ci ← clock_in r; co ← clock_out r;
  a ← Py.parse_time ci; b ← Py.parse_time co; Some (a, b).

Definition is_absent (r : AttendanceRecord) : Prop :=
  clock_in r = None ∧ clock_out r = None.

Definition late_or_early (times : Py.time * Py.time) : Prop :=
  Py.seconds_of start_time < Py.seconds_of times.1
  ∨ Py.seconds_of times.2 < Py.seconds_of end_time.

(** The classification in the words of the specification. *)
Definition delinquent (r : AttendanceRecord) : Prop :=
  is_absent r
  ∨ match clock_times r with
    | Some times => late_or_early times
    | None => False
    end.

#[global] Instance delinquent_dec r : Decision (delinquent r).
Proof.
  unfold delinquent, is_absent, late_or_early.
  destruct (clock_times r); apply _.
Defined.

Definition classifiable (r : AttendanceRecord) : Prop :=
  is_absent r ∨ is_Some (clock_times r).

(** A severe-weather row of the country, in the words of the specification. *)
Definition severe_weather_row (country : string) (w : WeatherRecord) : Prop :=
  w_country w = country
  ∧ date_year (w_date w) = Some 2023
  ∧ (condition w ∈ bad_weather_conditions ∨ (40 < max_temp w)%Q).

(** An event of the country in 2023. *)
Definition qualifying_event (country : string) (e : EventRecord) : Prop :=
  ev_country e = country ∧ date_year (ev_event_date e) = Some 2023.

#[global] Instance qualifying_event_dec country e :
  Decision (qualifying_event country e).
Proof. unfold qualifying_event. apply _. Defined.

(** The event day is the day before the delinquent day, that day, or the
    day after. *)
Definition within_a_day (dE dD : Py.date) : Prop :=
  Py.toordinal dE = Py.toordinal dD - 1
  ∨ Py.toordinal dE = Py.toordinal dD
  ∨ Py.toordinal dE = Py.toordinal dD + 1.

#[global] Instance within_a_day_dec dE dD : Decision (within_a_day dE dD).
Proof. unfold within_a_day. apply _. Defined.

Definition reason_of (country : string) (event : string * string) : EventReason :=
  {| country := country; event_name := event.2; event_date := event.1 |}.

Definition event_near (dD : Py.date) (event : string * string) : Prop :=
  match Py.parse_date event.1 with
  | Some dE => within_a_day dE dD
  | None => False
  end.

#[global] Instance event_near_dec dD event : Decision (event_near dD event).
Proof. unfold event_near. destruct (Py.parse_date event.1); apply _. Defined.

(** The candidates that one delinquent day contributes. *)
Definition candidates_for (country : string) (dD : Py.date)
    (event_set : list (string * string)) : list EventReason :=
  reason_of country <$> filter (event_near dD) event_set.






(** ** Hours *)


Section HoursVocabulary.
Context {F : Type} `{Number F}.
Implicit Types (d : week_dict (F := F)) (week : Z) (x : F).

(** The hours of a row: the time between clock-in and clock-out when both
    are present, none otherwise. *)
Definition hours_worked (r : AttendanceRecord) : F :=
  match clock_in r, clock_out r with
  | Some ci, Some co =>
      match Py.parse_time ci, Py.parse_time co with
      | Some start, Some stop =>
          num_div (num_of_int (Py.seconds_of stop - Py.seconds_of start))
            (num_of_int 3600)
      | _, _ => num_zero
      end
  | _, _ => num_zero
  end.

(** The ISO week number of the date of a row. *)
Definition week_of (r : AttendanceRecord) : Z :=
  match Py.parse_date (date r) with
  | Some day => Py.iso_week day
  | None => 0
  end.

(** The row has a date and, when both times are present, two times that
    [strptime] accepts. *)
Definition computable (r : AttendanceRecord) : Prop :=
  is_Some (Py.parse_date (date r))
  ∧ ∀ ci co, clock_in r = Some ci → clock_out r = Some co →
             is_Some (Py.parse_time ci) ∧ is_Some (Py.parse_time co).


(** The total of a week: the hours of its rows, added up in the order of
    the rows. *)
Definition week_total (rows : list AttendanceRecord) week : F :=
  py_sum (hours_worked <$> filter (λ r, week_of r = week) rows).

(** What one row does to the dictionary. *)
Definition add_hours week x d : week_dict :=
  match dict_get week d with
  | Some v => dict_set week (num_add v x) d
  | None => d ++ [(week, num_add num_zero x)]
  end.

(** What the loop maintains: one key for each week seen, and values that
    add up to the hours of the rows read. *)
Definition week_dict_inv (rows : list AttendanceRecord) d : Prop :=
  NoDup d.*1
  ∧ (∀ k, k ∈ d.*1 ↔ k ∈ week_of <$> rows)
  ∧ py_sum d.*2 = py_sum (hours_worked <$> rows).

End HoursVocabulary.

(** ** Reports *)

Section ReportsVocabulary.
Context `{SetOrder string} `{SetOrder (string * string)}.
Context {F : Type} `{Number F}.

(** What the loop body computes for one employee before it compares the
    number of events with 3: the events and the average. *)
Definition findings (weather_data : option (list WeatherRecord))
    (events_data : option (list EventRecord))
    (attendance_data : list AttendanceRecord) (employee : Employee)
  : result (list EventReason * F) :=
  employee_attendance_data ←
    get_employee_attendance_data (record_id employee) attendance_data 2023;
  poor_employee_attendance_data ← check_employee_times employee_attendance_data;
  weather ← local weather_data;
  events ← local events_data;
  events_cross_reference ←
    check_dates_against_events weather events poor_employee_attendance_data
      (emp_country employee);
  average ← calculate_average_hours_per_week employee_attendance_data;
  Ok (events_cross_reference, average).

Definition report_of (employee : Employee) (found : list EventReason * F)
  : Report F :=
  {| employee := employee; average_hours_per_week := found.2;
     events := found.1 |}.

(** The reports an employee contributes: one when the findings hold more
    than three events, none otherwise. *)
Definition reports_of (weather_data : option (list WeatherRecord))
    (events_data : option (list EventRecord))
    (attendance_data : list AttendanceRecord) (employee : Employee)
  : list (Report F) :=
  match findings weather_data events_data attendance_data employee with
  | Ok found =>
      if decide (3 < length found.1)%nat then [report_of employee found]
      else []
  | Err _ => []
  end.

End ReportsVocabulary.

(** ** Further vocabulary *)

(** The string has no hyphen. *)
Definition hyphen_free (s : string) : Prop := "-"%char ∉ Py.chars s.

(** The event reported has the country asked for, is an event of that
    country in 2023 in the events data, and lies within a day of one of the
    delinquent dates. *)
Definition explained_by (asked : string) (events_data : list EventRecord)
    (poor_employee_attendance_data : list string) (e : EventReason) : Prop :=
  country e = asked
  ∧ ∃ source D dD dE,
      source ∈ events_data ∧ qualifying_event asked source
      ∧ ev_event_date source = event_date e
      ∧ ev_event_name source = event_name e
      ∧ D ∈ poor_employee_attendance_data
      ∧ Py.parse_date D = Some dD
      ∧ Py.parse_date (event_date e) = Some dE
      ∧ within_a_day dE dD.

(** The report was built for the employee: more than three events, of
    pairwise distinct dates, each explained by a delinquent date of the
    employee. *)
Definition report_for {F} (events_data : option (list EventRecord))
    (attendance_data : list AttendanceRecord) (r : Report F) (emp : Employee)
  : Prop :=
  employee r = emp
  ∧ (3 < length (events r))%nat
  ∧ NoDup (event_date <$> events r)
  ∧ ∃ events_list rows poor,
      events_data = Some events_list
      ∧ get_employee_attendance_data (record_id emp) attendance_data 2023
        = Ok rows
      ∧ check_employee_times rows = Ok poor
      ∧ Forall (explained_by (emp_country emp) events_list poor) (events r).

(** The cell holds no time: it is [None], the empty string or one of the
    spellings of a missing value. *)
Definition cell_missing (cell : option string) : Prop :=
  ∀ s, cell = Some s → Alternate.is_missing s.

(** The time that the tabular pipeline reads in a cell, if any. *)
Definition cell_time (cell : option string) : option Py.time :=
  s ← cell; if decide (Alternate.is_missing s) then None else Alternate.read_time s.

(** The cell holds no time or one that the format accepts. *)
Definition cell_readable (cell : option string) : Prop :=
  cell_missing cell ∨ is_Some (cell_time cell).

(** The row of the tabular pipeline once its two times are read. *)
Definition timed_of (r : Alternate.AttendanceRow) : Alternate.TimedRow :=
  {| Alternate.t_employee_record_id := Alternate.row_employee_record_id r;
     Alternate.t_date := Alternate.row_date r;
     Alternate.t_clock_in := cell_time (Alternate.row_clock_in r);
     Alternate.t_clock_out := cell_time (Alternate.row_clock_out r) |}.

Definition times_readable (r : Alternate.AttendanceRow) : Prop :=
  cell_readable (Alternate.row_clock_in r)
  ∧ cell_readable (Alternate.row_clock_out r).

Definition time_missing (r : Alternate.AttendanceRow) : Prop :=
  cell_missing (Alternate.row_clock_in r)
  ∨ cell_missing (Alternate.row_clock_out r).

(** A frame with rows in which no row has a clock-in, or no row has a
    clock-out. *)
Definition column_missing (df : list Alternate.AttendanceRow) : Prop :=
  df ≠ []
  ∧ (Forall (λ r, cell_missing (Alternate.row_clock_in r)) df
     ∨ Forall (λ r, cell_missing (Alternate.row_clock_out r)) df).

(** A date of the calendar, as the [datetime] constructor accepts it. *)
Definition valid_date (d : Py.date) : Prop :=
  1 <= Py.year d ∧ 1 <= Py.month d <= 12
  ∧ 1 <= Py.day d <= Py.days_in_month (Py.year d) (Py.month d).

(** * Sample data *)

Definition row (id : Z) (d : string) (ci co : option string) : AttendanceRecord :=
  {| employee_record_id := id; date := d; clock_in := ci; clock_out := co |}.

Definition sample_attendance : list AttendanceRecord :=
  [ row 1 "2023-06-05" (Some "09:00:00") (Some "17:00:00");
    row 2 "2023-06-05" (Some "08:00:00") (Some "16:00:00");
    row 1 "2022-12-30" (Some "08:00:00") (Some "16:00:00");
    row 1 "2023-06-12" (Some "08:00:00") (Some "15:00:00");
    row 1 "2023-06-19" None None;
    row 1 "2023-06-26" (Some "08:16:00") (Some "16:00:00");
    row 1 "2023-06-27" (Some "08:15:00") (Some "16:00:00");
    row 1 "2023-07-03" None None ]%string.

Definition employee_1_in_2023 : list AttendanceRecord :=
  [ row 1 "2023-06-05" (Some "09:00:00") (Some "17:00:00");
    row 1 "2023-06-12" (Some "08:00:00") (Some "15:00:00");
    row 1 "2023-06-19" None None;
    row 1 "2023-06-26" (Some "08:16:00") (Some "16:00:00");
    row 1 "2023-06-27" (Some "08:15:00") (Some "16:00:00");
    row 1 "2023-07-03" None None ]%string.

Definition ann : Employee :=
  {| record_id := 1; name := "Ann"; work_id_number := "W-1";
     email_address := "ann@example.org"; emp_country := "US";
     phone_number := "555-0101" |}.

Definition bob : Employee :=
  {| record_id := 2; name := "Bob"; work_id_number := "W-2";
     email_address := "bob@example.org"; emp_country := "CA";
     phone_number := "555-0102" |}.

(** An employee without any attendance row. *)
Definition cy : Employee :=
  {| record_id := 3; name := "Cy"; work_id_number := "W-3";
     email_address := "cy@example.org"; emp_country := "US";
     phone_number := "555-0103" |}.

Definition weather (c d cond : string) (t : Q) : WeatherRecord :=
  {| w_country := c; w_date := d; condition := cond; max_temp := t |}.

Definition sample_weather : list WeatherRecord :=
  [ weather "US" "2023-07-03" "hurricane" 30;
    weather "US" "2023-01-01" "sunny" 41;
    weather "CA" "2023-06-12" "hail" 10;
    weather "US" "2022-06-12" "hail" 10 ].

Definition event (c d n : string) : EventRecord :=
  {| ev_country := c; ev_event_date := d; ev_event_name := n |}.

Definition sample_events : list EventRecord :=
  [ event "US" "2023-06-04" "Parade";
    event "US" "2023-06-12" "Concert";
    event "US" "2023-06-20" "Fair";
    event "US" "2023-06-26" "Derby";
    event "US" "2023-06-28" "Gala";
    event "US" "2023-07-03" "Fireworks";
    event "CA" "2023-06-05" "Regatta";
    event "US" "2022-06-05" "Expo" ].

Definition sample_delinquent_dates : list string :=
  ["2023-06-05"; "2023-06-12"; "2023-06-19"; "2023-06-26"; "2023-07-03"]%string.

(** Four late arrivals of Ann, an event on each of the four days, and no
    severe weather. *)
Definition four_late_days : list AttendanceRecord :=
  [ row 1 "2023-06-05" (Some "09:00:00") (Some "17:00:00");
    row 1 "2023-06-12" (Some "09:00:00") (Some "17:00:00");
    row 1 "2023-06-19" (Some "09:00:00") (Some "17:00:00");
    row 1 "2023-06-26" (Some "09:00:00") (Some "17:00:00") ]%string.

Definition four_events : list EventRecord :=
  [ event "US" "2023-06-05" "Parade";
    event "US" "2023-06-12" "Concert";
    event "US" "2023-06-19" "Fair";
    event "US" "2023-06-26" "Derby" ].

Definition mild_weather : list WeatherRecord :=
  [ weather "US" "2023-01-01" "sunny" 20 ].


(** * Theorems *)

(** ** The library model on a few inputs *)

Example parse_time_0815 : Py.parse_time "08:15:00" = Some (Py.mk_time 8 15 0).
Proof. reflexivity. Qed.
Example parse_time_short : Py.parse_time "8:5:3" = Some (Py.mk_time 8 5 3).
Proof. reflexivity. Qed.
Example parse_time_24 : Py.parse_time "24:00:00" = None.
Proof. reflexivity. Qed.
Example parse_date_leap : Py.parse_date "2024-02-29" = Some (Py.mk_date 2024 2 29).
Proof. reflexivity. Qed.
Example late_arrival_is_delinquent :
  check_employee_times
    [ {| employee_record_id := 1; date := "2023-06-05";
         clock_in := Some "09:00:00"%string;
         clock_out := Some "16:30:00"%string |} ]
  = Ok ["2023-06-05"%string].
Proof. reflexivity. Qed.
Example parse_date_noleap : Py.parse_date "2023-02-29" = None.
Proof. reflexivity. Qed.
Example int_examples :
  Py.int " +2_023 " = Some 2023 ∧ Py.int "" = None ∧ Py.int "20_" = None
  ∧ Py.int "02023" = Some 2023.
Proof. repeat split. Qed.
Example iso_week_examples :
  Py.iso_week (Py.mk_date 2023 1 1) = 52
  ∧ Py.iso_week (Py.mk_date 2023 1 2) = 1
  ∧ Py.iso_week (Py.mk_date 2024 12 30) = 1
  ∧ Py.iso_week (Py.mk_date 2020 12 31) = 53
  ∧ Py.toordinal (Py.mk_date 2023 6 10) = 738681.
Proof. repeat split. Qed.

(** ** Loops *)

Section ForEach.
Context {A S : Type}.
Implicit Types (body : S → A → result S) (xs : list A) (s : S).

Lemma for_each_app body xs ys s :
  for_each body (xs ++ ys) s = s' ← for_each body xs s; for_each body ys s'.
Proof.
  revert s. induction xs as [|x xs IH]; intros s; simpl; [done|].
  destruct (body s x); simpl; auto.
Qed.

Lemma for_each_cons body x xs s :
  for_each body (x :: xs) s = s' ← body s x; for_each body xs s'.
Proof. done. Qed.

(** An exception in the body, at any element and in any state, ends the
    loop with an exception. *)
Lemma for_each_raises body xs s x :
  x ∈ xs → (∀ s', is_Err (body s' x)) → is_Err (for_each body xs s).
Proof.
  intros Hx Hbody. revert s.
  induction xs as [|y xs IH]; intros s; [by apply elem_of_nil in Hx|].
  simpl. apply elem_of_cons in Hx as [->|Hx].
  - destruct (Hbody s) as [e ->]. by exists e.
  - destruct (body s y) as [s'|e]; simpl; [by apply IH|by exists e].
Qed.
End ForEach.

Lemma result_bind_Ok {A B} (a : A) (f : A → result B) : Ok a ≫= f = f a.
Proof. done. Qed.

(** A loop whose body appends to a list what an element contributes. *)
Lemma for_each_appends {A B} (body : list B → A → result (list B))
    (f : A → list B) (xs : list A) (acc : list B) :
  (∀ x acc', x ∈ xs → body acc' x = Ok (acc' ++ f x)) →
  for_each body xs acc = Ok (acc ++ xs ≫= f).
Proof.
  revert acc. induction xs as [|x xs IH]; intros acc Hbody; simpl.
  - by rewrite app_nil_r.
  - rewrite Hbody by left. simpl. rewrite IH.
    + by rewrite app_assoc.
    + intros y acc' Hy. apply Hbody. by right.
Qed.

Lemma bind_filter_singleton {A} (P : A → Prop) `{∀ x, Decision (P x)}
    (xs : list A) :
  xs ≫= (λ x, if decide (P x) then [x] else []) = filter P xs.
Proof.
  induction xs as [|x xs IH]; [done|].
  rewrite bind_cons, IH, filter_cons. by destruct (decide (P x)).
Qed.

(** ** [remove_duplicate_events] *)

Lemma dedup_inv_init : dedup_inv [] (∅, []).
Proof. repeat split; simpl; try constructor; done. Qed.

Lemma dedup_inv_step done st event :
  dedup_inv done st →
  dedup_inv (done ++ [event]) (remove_duplicate_events_step st event).
Proof.
  destruct st as [unique_dates unique_events].
  intros (HU & Hsub & Hnd & Hdates); simpl in *.
  unfold remove_duplicate_events_step.
  destruct (decide (event_date event ∈ unique_dates)) as [Hin|Hin];
    subst unique_dates; rewrite elem_of_list_to_set in Hin;
    repeat split; simpl.
  - rewrite fmap_app, list_to_set_app_L. simpl. set_solver.
  - by apply sublist_inserts_r.
  - done.
  - rewrite Hdates, fmap_app. set_solver.
  - rewrite Hdates, fmap_app. intros [?|Hd%list_elem_of_singleton]%elem_of_app;
      [done|by subst].
  - rewrite fmap_app, list_to_set_app_L. simpl. set_solver.
  - by apply sublist_app.
  - rewrite fmap_app. apply NoDup_app. split; [done|]. split.
    + intros d Hd ->%list_elem_of_singleton. by apply Hin, Hdates.
    + apply NoDup_singleton.
  - rewrite !fmap_app, !elem_of_app, Hdates. tauto.
  - rewrite !fmap_app, !elem_of_app, Hdates. tauto.
Qed.

Lemma dedup_inv_loop event_data :
  dedup_inv event_data (foldl remove_duplicate_events_step (∅, []) event_data).
Proof.
  induction event_data as [|event done IH] using rev_ind.
  - apply dedup_inv_init.
  - rewrite foldl_app. simpl. by apply dedup_inv_step.
Qed.

(** C4. [remove_duplicate_events] looks at the [event_date] only.  Reading the
    input in order, a candidate is kept exactly when no earlier candidate
    carries its [event_date], whatever the names are; so the output is a
    subsequence of the input, its event dates are pairwise distinct, and
    every event date of the input occurs in it. *)
Theorem remove_duplicate_events_keeps_first_of_each_date :
  ∀ event_data : list EventReason,
    remove_duplicate_events event_data `sublist_of` event_data
    ∧ NoDup (event_date <$> remove_duplicate_events event_data)
    ∧ (∀ d, d ∈ event_date <$> remove_duplicate_events event_data
            ↔ d ∈ event_date <$> event_data)
    ∧ (∀ earlier event,
         event_data = earlier ++ [event] →
         remove_duplicate_events event_data
         = if decide (event_date event ∈ event_date <$> earlier)
           then remove_duplicate_events earlier
           else remove_duplicate_events earlier ++ [event])
    ∧ (∀ c1 n1 c2 n2 d,
         remove_duplicate_events
           [{| country := c1; event_name := n1; event_date := d |};
            {| country := c2; event_name := n2; event_date := d |}]
         = [{| country := c1; event_name := n1; event_date := d |}]).
Proof.
  intros event_data. unfold remove_duplicate_events.
  destruct (dedup_inv_loop event_data) as (_ & Hsub & Hnd & Hdates).
  repeat split; try done; try apply Hdates.
  - intros earlier event ->. rewrite foldl_app. simpl.
    destruct (dedup_inv_loop earlier) as (HU & _).
    destruct (foldl remove_duplicate_events_step (∅, []) earlier)
      as [unique_dates unique_events]; simpl in *.
    subst unique_dates.
    destruct (decide (event_date event ∈ event_date <$> earlier)) as [Hin|Hin];
      destruct (decide (event_date event
                        ∈ (list_to_set (event_date <$> earlier) : gset string)))
        as [Hin'|Hin']; try done;
      rewrite elem_of_list_to_set in Hin'; done.
  - intros c1 n1 c2 n2 d. simpl.
    rewrite decide_False by set_solver. simpl.
    rewrite decide_True by set_solver. done.
Qed.

Lemma remove_duplicate_events_keeps_first_of_each_date_witness :
  remove_duplicate_events
    ([ {| country := "US"; event_name := "Parade"; event_date := "2023-06-04" |};
       {| country := "US"; event_name := "Concert"; event_date := "2023-06-12" |} ]
     ++ [ {| country := "US"; event_name := "Fair"; event_date := "2023-06-04" |} ])
  = [ {| country := "US"; event_name := "Parade"; event_date := "2023-06-04" |};
      {| country := "US"; event_name := "Concert"; event_date := "2023-06-12" |} ].
Proof.
  rewrite (proj1 (proj2 (proj2 (proj2
             (remove_duplicate_events_keeps_first_of_each_date _)))) _ _ eq_refl).
  reflexivity.
Defined.

(** ** Dates and times accepted by [strptime] *)

Lemma is_digit_facts c :
  Py.is_digit c = true →
  Py.is_space c = false ∧ Ascii.eqb c "-" = false ∧ Ascii.eqb c "+" = false
  ∧ Ascii.eqb c "_" = false ∧ Ascii.eqb c "." = false ∧ 0 <= Py.digit c <= 9.
Proof.
  destruct c as [[] [] [] [] [] [] [] []]; vm_compute; intros Hc;
    try discriminate Hc; repeat split; congruence.
Qed.

Lemma read_digit_Some l v rest :
  Py.read_digit l = Some (v, rest) →
  ∃ c, l = c :: rest ∧ Py.is_digit c = true ∧ v = Py.digit c.
Proof.
  destruct l as [|c l]; simpl; [done|].
  destruct (Py.is_digit c) eqn:Hc; [|done].
  intros [= <- <-]. by exists c.
Qed.

Lemma read_4_Some l y rest :
  Py.read_4 l = Some (y, rest) →
  ∃ a b c d,
    l = a :: b :: c :: d :: rest
    ∧ Py.is_digit a = true ∧ Py.is_digit b = true
    ∧ Py.is_digit c = true ∧ Py.is_digit d = true
    ∧ y = 1000 * Py.digit a + 100 * Py.digit b + 10 * Py.digit c + Py.digit d.
Proof.
  unfold Py.read_4. intros Hread.
  destruct (Py.read_digit l) as [[va l1]|] eqn:H1; simpl in Hread; [|done].
  destruct (Py.read_digit l1) as [[vb l2]|] eqn:H2; simpl in Hread; [|done].
  destruct (Py.read_digit l2) as [[vc l3]|] eqn:H3; simpl in Hread; [|done].
  destruct (Py.read_digit l3) as [[vd l4]|] eqn:H4; simpl in Hread; [|done].
  injection Hread as <- <-.
  apply read_digit_Some in H1 as (a & -> & Ha & ->).
  apply read_digit_Some in H2 as (b & -> & Hb & ->).
  apply read_digit_Some in H3 as (c & -> & Hc & ->).
  apply read_digit_Some in H4 as (d & -> & Hd & ->).
  by exists a, b, c, d.
Qed.

Lemma expect_Some sep l rest :
  Py.expect sep l = Some rest → l = sep :: rest.
Proof.
  destruct l as [|c l]; simpl; [done|].
  destruct (Ascii.eqb c sep) eqn:Hc; [|done].
  apply Ascii.eqb_eq in Hc as ->. by intros [= ->].
Qed.

(** A date that [strptime] accepts starts with four digits and a hyphen. *)
Lemma parse_date_shape s d :
  Py.parse_date s = Some d →
  ∃ a b c e rest,
    Py.chars s = a :: b :: c :: e :: "-"%char :: rest
    ∧ Py.is_digit a = true ∧ Py.is_digit b = true
    ∧ Py.is_digit c = true ∧ Py.is_digit e = true
    ∧ Py.year d
      = 1000 * Py.digit a + 100 * Py.digit b + 10 * Py.digit c + Py.digit e.
Proof.
  unfold Py.parse_date. intros Hparse.
  destruct (Py.read_4 (Py.chars s)) as [[y l]|] eqn:H4; simpl in Hparse; [|done].
  destruct (Py.expect "-" l) as [l1|] eqn:Hsep; simpl in Hparse; [|done].
  apply read_4_Some in H4 as (a & b & c & e & Hl & Ha & Hb & Hc & He & ->).
  apply expect_Some in Hsep as ->.
  exists a, b, c, e, l1. repeat split; try done.
  repeat (simplify_option_eq || case_match); done.
Qed.

Lemma chars_String c s : Py.chars (String c s) = c :: Py.chars s.
Proof. done. Qed.

Lemma chars_cons_inv s c l :
  Py.chars s = c :: l → ∃ s', s = String c s' ∧ Py.chars s' = l.
Proof. destruct s as [|c' s']; [done|]. intros [= -> <-]. by exists s'. Qed.

(** The year that [check_if_date_is_in_year] reads off such a date is its
    calendar year. *)
Lemma date_year_parse_date s d :
  Py.parse_date s = Some d → date_year s = Some (Py.year d).
Proof.
  intros (a & b & c & e & rest & Hs & Ha & Hb & Hc & He & ->)%parse_date_shape.
  apply chars_cons_inv in Hs as (s1 & -> & Hs).
  apply chars_cons_inv in Hs as (s2 & -> & Hs).
  apply chars_cons_inv in Hs as (s3 & -> & Hs).
  apply chars_cons_inv in Hs as (s4 & -> & Hs).
  apply chars_cons_inv in Hs as (s5 & -> & Hs).
  destruct (is_digit_facts a Ha) as (Ha1 & Ha2 & Ha3 & Ha4 & _).
  destruct (is_digit_facts b Hb) as (Hb1 & Hb2 & Hb3 & Hb4 & _).
  destruct (is_digit_facts c Hc) as (Hc1 & Hc2 & Hc3 & Hc4 & _).
  destruct (is_digit_facts e He) as (He1 & He2 & He3 & He4 & _).
  unfold date_year. simpl. rewrite Ha2, Hb2, Hc2, He2. simpl.
  unfold Py.int, Py.strip. simpl. rewrite Ha1. unfold reverse. simpl.
  rewrite He1. simpl. rewrite Ha2, Ha3. simpl.
  unfold Py.int_unsigned. simpl. rewrite Ha, Hb, Hc, He. simpl.
  f_equal. lia.
Qed.

(** ** [get_employee_attendance_data] *)

Lemma get_employee_attendance_data_step_Ok record_id year acc r :
  (employee_record_id r = record_id → is_Some (date_year (date r))) →
  get_employee_attendance_data_step record_id year acc r
  = Ok (acc ++ if decide (belongs_to record_id year r) then [r] else []).
Proof.
  intros Hyear. unfold get_employee_attendance_data_step.
  destruct (decide (belongs_to record_id year r)) as [[Hid Hy]|Hnot].
  - rewrite decide_True by done. unfold check_if_date_is_in_year.
    rewrite Hy. simpl. by rewrite Z.eqb_refl.
  - rewrite app_nil_r.
    destruct (decide (employee_record_id r = record_id)) as [Hid|Hid]; [|done].
    destruct (Hyear Hid) as [y Hy]. unfold check_if_date_is_in_year.
    rewrite Hy. simpl. destruct (Z.eqb_spec y year) as [->|Hne]; [|done].
    by destruct Hnot.
Qed.

(** C8. When the date of every row of the employee has a year to read,
    [get_employee_attendance_data] returns the rows whose
    [employee_record_id] is the given one and whose year is exactly the target
    year, in the order of the data set; when the year of some row of the
    employee cannot be read, it raises.  For a date that [strptime] accepts
    the year read is the calendar year. *)
Theorem get_employee_attendance_data_filters :
  ∀ (record_id : Z) (employee_attendance_data : list AttendanceRecord) (year : Z),
    ((∀ r, r ∈ employee_attendance_data → employee_record_id r = record_id →
           is_Some (date_year (date r))) →
     get_employee_attendance_data record_id employee_attendance_data year
     = Ok (filter (belongs_to record_id year) employee_attendance_data))
    ∧ (∀ r, r ∈ employee_attendance_data → employee_record_id r = record_id →
            date_year (date r) = None →
            is_Err (get_employee_attendance_data record_id
                      employee_attendance_data year))
    ∧ (∀ r d, r ∈ employee_attendance_data →
              Py.parse_date (date r) = Some d →
              (belongs_to record_id year r
               ↔ employee_record_id r = record_id ∧ Py.year d = year)).
Proof.
  intros record_id rows year. split; [|split].
  - intros Hyear. unfold get_employee_attendance_data.
    rewrite (for_each_appends _
               (λ r, if decide (belongs_to record_id year r) then [r] else [])).
    + simpl. by rewrite bind_filter_singleton.
    + intros r acc Hr. apply get_employee_attendance_data_step_Ok. eauto.
  - intros r Hr Hid Hnone. eapply for_each_raises; [done|].
    intros acc. unfold get_employee_attendance_data_step.
    rewrite decide_True by done. unfold check_if_date_is_in_year.
    rewrite Hnone. by exists ValueError.
  - intros r d _ Hd%date_year_parse_date. unfold belongs_to. rewrite Hd.
    split; intros [Hid Hy]; (split; [done|congruence]).
Qed.

Lemma get_employee_attendance_data_filters_witness :
  get_employee_attendance_data 1 sample_attendance 2023
  = Ok [ row 1 "2023-06-05" (Some "09:00:00") (Some "17:00:00");
         row 1 "2023-06-12" (Some "08:00:00") (Some "15:00:00");
         row 1 "2023-06-19" None None;
         row 1 "2023-06-26" (Some "08:16:00") (Some "16:00:00");
         row 1 "2023-06-27" (Some "08:15:00") (Some "16:00:00");
         row 1 "2023-07-03" None None ]%string.
Proof.
  rewrite (proj1 (get_employee_attendance_data_filters 1 sample_attendance 2023)).
  - reflexivity.
  - intros r Hr _. unfold sample_attendance in Hr.
    repeat (apply elem_of_cons in Hr as [->|Hr]; [by eexists|]).
    by apply elem_of_nil in Hr.
Defined.

(** ** [check_employee_times] *)

Lemma read_1_2_Some l v rest :
  Py.read_1_2 l = Some (v, rest) → 0 <= v.
Proof.
  destruct l as [|c1 [|c2 l]]; simpl; [done| |].
  - destruct (Py.is_digit c1) eqn:H1; [|done]. intros [= <- <-].
    apply is_digit_facts in H1. lia.
  - destruct (Py.is_digit c1) eqn:H1; [|done].
    destruct (Py.is_digit c2) eqn:H2; intros [= <- <-];
      apply is_digit_facts in H1; try apply is_digit_facts in H2; lia.
Qed.

Lemma parse_time_in_range s t : Py.parse_time s = Some t → time_in_range t.
Proof.
  unfold Py.parse_time, time_in_range. intros Hparse.
  destruct (Py.read_1_2 (Py.chars s)) as [[h l]|] eqn:Hh; simpl in Hparse; [|done].
  apply read_1_2_Some in Hh.
  case_guard; simpl in Hparse; [|done].
  destruct (Py.expect ":" l) as [l1|]; simpl in Hparse; [|done].
  destruct (Py.read_1_2 l1) as [[m l2]|] eqn:Hm; simpl in Hparse; [|done].
  apply read_1_2_Some in Hm.
  case_guard; simpl in Hparse; [|done].
  destruct (Py.expect ":" l2) as [l3|]; simpl in Hparse; [|done].
  destruct (Py.read_1_2 l3) as [[sec l4]|] eqn:Hs; simpl in Hparse; [|done].
  apply read_1_2_Some in Hs.
  repeat (case_guard; simplify_eq/=). lia.
Qed.

(** On times of day the comparison of [datetime.time] objects is the
    comparison of the seconds since midnight. *)
Lemma time_lt_seconds a b :
  time_in_range a → time_in_range b →
  Py.time_lt a b = (Py.seconds_of a <? Py.seconds_of b).
Proof.
  unfold time_in_range, Py.time_lt, Py.seconds_of.
  intros (? & ? & ?) (? & ? & ?).
  repeat match goal with
         | |- context [?x <? ?y] => destruct (Z.ltb_spec x y)
         | |- context [?x =? ?y] => destruct (Z.eqb_spec x y)
         end; simpl; try done; lia.
Qed.

Lemma clock_times_Some r a b :
  clock_times r = Some (a, b) →
  ∃ ci co, clock_in r = Some ci ∧ clock_out r = Some co
           ∧ Py.parse_time ci = Some a ∧ Py.parse_time co = Some b.
Proof.
  unfold clock_times. intros Ht.
  destruct (clock_in r) as [ci|]; simpl in Ht; [|done].
  destruct (clock_out r) as [co|]; simpl in Ht; [|done].
  destruct (Py.parse_time ci) as [a'|] eqn:Ha; simpl in Ht; [|done].
  destruct (Py.parse_time co) as [b'|] eqn:Hb; simpl in Ht; [|done].
  injection Ht as -> ->. by exists ci, co.
Qed.

Lemma check_employee_times_step_times acc r a b :
  clock_times r = Some (a, b) →
  check_employee_times_step acc r
  = Ok (if decide (late_or_early (a, b)) then acc ++ [date r] else acc).
Proof.
  intros (ci & co & Hci & Hco & Ha & Hb)%clock_times_Some.
  unfold check_employee_times_step. rewrite Hci, Hco. simpl.
  rewrite Ha, Hb. simpl.
  pose proof (parse_time_in_range _ _ Ha). pose proof (parse_time_in_range _ _ Hb).
  rewrite !time_lt_seconds by (done || (unfold time_in_range; simpl; lia)).
  unfold late_or_early. simpl.
  destruct (Z.ltb_spec (Py.seconds_of start_time) (Py.seconds_of a));
    destruct (Z.ltb_spec (Py.seconds_of b) (Py.seconds_of end_time)); simpl;
    (rewrite decide_True by tauto) || (rewrite decide_False by lia); done.
Qed.

Lemma check_employee_times_step_absent acc r :
  is_absent r → check_employee_times_step acc r = Ok (acc ++ [date r]).
Proof. intros [Hci Hco]. unfold check_employee_times_step. by rewrite Hci, Hco. Qed.

Lemma check_employee_times_step_classifiable acc r :
  classifiable r →
  check_employee_times_step acc r
  = Ok (acc ++ if decide (delinquent r) then [date r] else []).
Proof.
  intros [Habs|[[a b] Ht]].
  - rewrite check_employee_times_step_absent by done.
    rewrite decide_True; [done|by left].
  - rewrite (check_employee_times_step_times _ _ a b) by done.
    assert (¬ is_absent r) as Hpresent.
    { intros [Hci _]. apply clock_times_Some in Ht as (? & ? & ? & _). congruence. }
    assert (delinquent r ↔ late_or_early (a, b)) as Hiff.
    { unfold delinquent. rewrite Ht. tauto. }
    destruct (decide (late_or_early (a, b))).
    + rewrite decide_True; [done|tauto].
    + rewrite decide_False, app_nil_r; [done|tauto].
Qed.

(** C1. [check_employee_times] records the date of a row whose two times are
    both absent; of a row whose times are both read it records the date
    exactly when the clock-in is later than 08:15:00 or the clock-out is
    earlier than 16:00:00, so a row with clock-in at or before 08:15:00 and
    clock-out at or after 16:00:00 is not recorded; over a list of such rows
    it returns the dates of the delinquent rows, in order. *)
Theorem check_employee_times_classifies :
  ∀ employee_attendance_data : list AttendanceRecord,
    (∀ acc r, clock_in r = None → clock_out r = None →
              check_employee_times_step acc r = Ok (acc ++ [date r]))
    ∧ (∀ acc r a b,
         clock_times r = Some (a, b) →
         Py.seconds_of start_time < Py.seconds_of a
         ∨ Py.seconds_of b < Py.seconds_of end_time →
         check_employee_times_step acc r = Ok (acc ++ [date r]))
    ∧ (∀ acc r a b,
         clock_times r = Some (a, b) →
         Py.seconds_of a <= Py.seconds_of start_time →
         Py.seconds_of end_time <= Py.seconds_of b →
         check_employee_times_step acc r = Ok acc)
    ∧ (Forall classifiable employee_attendance_data →
       check_employee_times employee_attendance_data
       = Ok (date <$> filter delinquent employee_attendance_data)).
Proof.
  intros rows. split; [|split; [|split]].
  - intros acc r Hci Hco. by apply check_employee_times_step_absent.
  - intros acc r a b Ht Hlate.
    rewrite (check_employee_times_step_times _ _ a b) by done.
    by rewrite decide_True.
  - intros acc r a b Ht Hin Hout.
    rewrite (check_employee_times_step_times _ _ a b) by done.
    rewrite decide_False; [done|]. unfold late_or_early. simpl. lia.
  - intros Hrows. unfold check_employee_times.
    rewrite (for_each_appends _
               (λ r, if decide (delinquent r) then [date r] else [])).
    + simpl. f_equal. clear Hrows.
      induction rows as [|r rows IH]; [done|].
      rewrite bind_cons, IH, filter_cons.
      by destruct (decide (delinquent r)).
    + intros r acc Hr. apply check_employee_times_step_classifiable.
      by eapply Forall_forall in Hrows.
Qed.

(** C10. A row with exactly one of its two times missing makes
    [check_employee_times] raise: [strptime] is given [None], which is a
    [TypeError], unless the clock-in is present and malformed, which is a
    [ValueError] before that.  The row is not classified and the loop over
    the rows ends with the exception. *)
Theorem check_employee_times_one_time_missing :
  ∀ (employee_attendance_data : list AttendanceRecord) (r : AttendanceRecord),
    r ∈ employee_attendance_data →
    (clock_in r = None ∧ clock_out r ≠ None)
    ∨ (clock_in r ≠ None ∧ clock_out r = None) →
    is_Err (check_employee_times employee_attendance_data)
    ∧ ∀ acc,
        check_employee_times_step acc r = Err TypeError
        ∨ (∃ ci, clock_in r = Some ci ∧ Py.parse_time ci = None
                 ∧ check_employee_times_step acc r = Err ValueError).
Proof.
  intros rows r Hr Hone.
  assert (∀ acc,
            check_employee_times_step acc r = Err TypeError
            ∨ (∃ ci, clock_in r = Some ci ∧ Py.parse_time ci = None
                     ∧ check_employee_times_step acc r = Err ValueError))
    as Hstep.
  { intros acc. unfold check_employee_times_step.
    destruct (clock_in r) as [ci|], (clock_out r) as [co|];
      try (destruct Hone as [[? ?]|[? ?]]; congruence); simpl.
    - destruct (Py.parse_time ci) eqn:Hci; simpl; [by left|].
      right. by exists ci.
    - by left. }
  split; [|done].
  eapply for_each_raises; [done|]. intros acc.
  destruct (Hstep acc) as [->|(? & _ & _ & ->)]; by eexists.
Qed.

Lemma check_employee_times_classifies_witness :
  check_employee_times employee_1_in_2023
  = Ok ["2023-06-05"; "2023-06-12"; "2023-06-19"; "2023-06-26"; "2023-07-03"]%string.
Proof.
  rewrite (proj2 (proj2 (proj2
             (check_employee_times_classifies employee_1_in_2023)))).
  - reflexivity.
  - apply Forall_forall. intros r Hr. unfold employee_1_in_2023 in Hr.
    repeat (apply elem_of_cons in Hr as [->|Hr];
            [(by left) || (right; by eexists)|]).
    by apply elem_of_nil in Hr.
Defined.

Lemma check_employee_times_one_time_missing_witness :
  is_Err (check_employee_times
            [ row 1 "2023-06-05" (Some "08:00:00") (Some "17:00:00");
              row 1 "2023-06-06" None (Some "17:00:00") ]%string).
Proof.
  refine (proj1 (check_employee_times_one_time_missing _
                   (row 1 "2023-06-06" None (Some "17:00:00")) _ _)).
  - right. left.
  - left. split; [reflexivity|discriminate].
Defined.

(** ** [check_dates_against_events]: the weather *)

Lemma above_40 (t : Q) : negb (Qle_bool t 40) = true ↔ (40 < t)%Q.
Proof.
  rewrite negb_true_iff, <- not_true_iff_false, Qle_bool_iff.
  split; [apply Qnot_le_lt|apply Qlt_not_le].
Qed.

Lemma is_severe_weather_Ok country w :
  (w_country w = country → is_Some (date_year (w_date w))) →
  ∃ b : bool,
    is_severe_weather country w = Ok b ∧ (b = true ↔ severe_weather_row country w).
Proof.
  intros Hyear. unfold is_severe_weather, severe_weather_row.
  destruct (decide (w_country w = country)) as [Hc|Hc].
  - destruct (Hyear Hc) as [y Hy]. unfold check_if_date_is_in_year.
    rewrite Hy. simpl. eexists. split; [done|].
    rewrite andb_true_iff, orb_true_iff, bool_decide_eq_true, above_40, Z.eqb_eq.
    split.
    + intros [-> ?]. done.
    + intros (_ & [= ->] & ?). done.
  - exists false. split; [done|]. split; [done|]. intros [? _]. done.
Qed.

Lemma weather_set_loop country weather_data set0 :
  (∀ w, w ∈ weather_data → w_country w = country →
        is_Some (date_year (w_date w))) →
  ∃ weather_set : gset string,
    for_each (weather_set_step country) weather_data set0 = Ok weather_set
    ∧ ∀ d, d ∈ weather_set
           ↔ d ∈ set0
             ∨ ∃ w, w ∈ weather_data ∧ w_date w = d ∧ severe_weather_row country w.
Proof.
  revert set0. induction weather_data as [|w ws IH]; intros set0 Hyear.
  - exists set0. split; [done|]. intros d. split; [by left|].
    intros [?|(w & Hw%elem_of_nil & _)]; done.
  - destruct (is_severe_weather_Ok country w) as (b & Hb & Hsev).
    { apply Hyear. by left. }
    assert (weather_set_step country set0 w
            = Ok (if b then {[w_date w]} ∪ set0 else set0)) as Hstep.
    { unfold weather_set_step. by rewrite Hb. }
    rewrite for_each_cons, Hstep. simpl.
    destruct (IH (if b then {[w_date w]} ∪ set0 else set0)) as (S & -> & HS).
    { intros w' Hw'. apply Hyear. by right. }
    exists S. split; [done|]. intros d. rewrite HS. split.
    + intros [Hd|(w' & Hw' & Hd & Hs)].
      * destruct b; [|by left].
        apply elem_of_union in Hd as [->%elem_of_singleton|Hd]; [|by left].
        right. exists w. split; [by left|]. split; [done|]. by apply Hsev.
      * right. exists w'. split; [by right|done].
    + intros [Hd|(w' & [->|Hw']%elem_of_cons & <- & Hs)].
      * left. destruct b; [|done]. apply elem_of_union. by right.
      * left. apply Hsev in Hs as ->. apply elem_of_union. left.
        by apply elem_of_singleton.
      * right. by exists w'.
Qed.


(** ** [check_dates_against_events]: the events *)

Lemma in_window (x : Z) : x ∈ window ↔ x = -1 ∨ x = 0 ∨ x = 1.
Proof. unfold window. rewrite !elem_of_cons, elem_of_nil. tauto. Qed.

Lemma event_reason_step_Ok country dD acc event :
  is_Some (Py.parse_date event.1) →
  event_reason_step country dD acc event
  = Ok (acc ++ if decide (event_near dD event) then [reason_of country event]
               else []).
Proof.
  destruct event as [E n]. intros [dE HdE]. simpl in HdE.
  assert (event_near dD (E, n) ↔ within_a_day dE dD) as Hnear.
  { unfold event_near. simpl. by rewrite HdE. }
  unfold event_reason_step. simpl. rewrite HdE. simpl.
  destruct (decide (Py.toordinal dE - Py.toordinal dD ∈ window)) as [Hw|Hw];
    rewrite in_window in Hw.
  - rewrite decide_True; [done|]. apply Hnear. unfold within_a_day. lia.
  - rewrite decide_False, app_nil_r; [done|].
    rewrite Hnear. unfold within_a_day. lia.
Qed.

Lemma no_excuse_date_step_Ok country event_set acc D dD :
  (∀ event, event ∈ event_set → is_Some (Py.parse_date event.1)) →
  Py.parse_date D = Some dD →
  no_excuse_date_step country event_set acc D
  = Ok (acc ++ candidates_for country dD event_set).
Proof.
  intros Hevents HD. unfold no_excuse_date_step. simpl. rewrite HD. simpl.
  rewrite (for_each_appends _
             (λ event, if decide (event_near dD event)
                       then [reason_of country event] else [])).
  - do 2 f_equal. unfold candidates_for. clear Hevents.
    induction event_set as [|event es IH]; [done|].
    rewrite bind_cons, IH, filter_cons.
    by destruct (decide (event_near dD event)).
  - intros event acc' Hev. apply event_reason_step_Ok. auto.
Qed.

Lemma event_set_step_Ok country acc e :
  (ev_country e = country → is_Some (date_year (ev_event_date e))) →
  event_set_step country acc e
  = Ok (acc ++ if decide (qualifying_event country e)
               then [(ev_event_date e, ev_event_name e)] else []).
Proof.
  intros Hyear. unfold event_set_step, is_event_of.
  destruct (decide (qualifying_event country e)) as [[Hc Hy]|Hnot].
  - rewrite decide_True by done. unfold check_if_date_is_in_year.
    by rewrite Hy.
  - rewrite app_nil_r.
    destruct (decide (ev_country e = country)) as [Hc|Hc]; [|done].
    destruct (Hyear Hc) as [y Hy]. unfold check_if_date_is_in_year.
    rewrite Hy. simpl. destruct (Z.eqb_spec y 2023) as [->|Hne]; [|done].
    by destruct Hnot.
Qed.

Lemma event_set_of_Ok `{SetOrder (string * string)} events_data country :
  (∀ e, e ∈ events_data → ev_country e = country →
        is_Some (date_year (ev_event_date e))) →
  ∃ event_set,
    event_set_of events_data country = Ok event_set
    ∧ NoDup event_set
    ∧ ∀ E n, (E, n) ∈ event_set
             ↔ ∃ e, e ∈ events_data ∧ qualifying_event country e
                    ∧ ev_event_date e = E ∧ ev_event_name e = n.
Proof.
  intros Hyear. unfold event_set_of.
  rewrite (for_each_appends _
             (λ e, if decide (qualifying_event country e)
                   then [(ev_event_date e, ev_event_name e)] else [])).
  2: { intros e acc He. apply event_set_step_Ok. auto. }
  simpl. eexists. split; [done|]. split; [apply set_iter_NoDup|].
  intros E n. rewrite set_iter_elem_of, list_elem_of_bind. split.
  - intros (e & Hin & He). destruct (decide (qualifying_event country e)).
    + apply list_elem_of_singleton in Hin as [= -> ->]. by exists e.
    + by apply elem_of_nil in Hin.
  - intros (e & He & Hq & <- & <-). exists e. split; [|done].
    rewrite decide_True by done. by apply list_elem_of_singleton.
Qed.

Lemma elem_of_candidates_for country dD event_set E n :
  reason_of country (E, n) ∈ candidates_for country dD event_set
  ↔ (E, n) ∈ event_set ∧ event_near dD (E, n).
Proof.
  unfold candidates_for. rewrite list_elem_of_fmap. split.
  - intros ([E' n'] & [= <- <-] & Hin%list_elem_of_filter). tauto.
  - intros [Hin Hnear]. exists (E, n). split; [done|].
    by apply list_elem_of_filter.
Qed.

(** C3. For a delinquent date [D] left without excuse and the qualifying
    events of the country, [check_dates_against_events] puts the candidate
    of an event dated [E] on its list for [D] exactly when [E] is the day
    before [D], [D] itself or the day after [D]; an event two days away is
    not a candidate for [D].  The whole candidate list holds exactly the
    candidates of all such dates. *)
Theorem event_candidates_within_a_day :
  ∀ `{SetOrder string} `{SetOrder (string * string)}
    (weather_data : list WeatherRecord) (events_data : list EventRecord)
    (poor_employee_attendance_data : list string) (country : string)
    (weather_set : gset string),
    weather_set_of weather_data country = Ok weather_set →
    (∀ e, e ∈ events_data → ev_country e = country →
          is_Some (date_year (ev_event_date e))) →
    (∀ e, e ∈ events_data → qualifying_event country e →
          is_Some (Py.parse_date (ev_event_date e))) →
    (∀ D, D ∈ poor_employee_attendance_data → D ∉ weather_set →
          is_Some (Py.parse_date D)) →
    ∃ event_set candidates,
      event_set_of events_data country = Ok event_set
      ∧ event_candidates weather_data events_data
          poor_employee_attendance_data country = Ok candidates
      ∧ (∀ acc D dD,
           Py.parse_date D = Some dD →
           no_excuse_date_step country event_set acc D
           = Ok (acc ++ candidates_for country dD event_set))
      ∧ (∀ dD E n dE,
           (E, n) ∈ event_set → Py.parse_date E = Some dE →
           (reason_of country (E, n) ∈ candidates_for country dD event_set
            ↔ within_a_day dE dD)
           ∧ (Py.toordinal dE = Py.toordinal dD - 2
              ∨ Py.toordinal dE = Py.toordinal dD + 2 →
              reason_of country (E, n) ∉ candidates_for country dD event_set))
      ∧ (∀ c, c ∈ candidates
              ↔ ∃ D dD e dE,
                  D ∈ poor_employee_attendance_data ∧ (D ∉ weather_set)
                  ∧ Py.parse_date D = Some dD
                  ∧ e ∈ events_data ∧ qualifying_event country e
                  ∧ Py.parse_date (ev_event_date e) = Some dE
                  ∧ within_a_day dE dD
                  ∧ c = {| country := country;
                           event_name := ev_event_name e;
                           event_date := ev_event_date e |}).
Proof.
  intros O1 O2 weather_data events_data poor country weather_set
    Hweather Hyear Hevents Hpoor.
  destruct (event_set_of_Ok events_data country Hyear)
    as (event_set & Hset & _ & Hin).
  assert (∀ event, event ∈ event_set → is_Some (Py.parse_date event.1))
    as Hparse.
  { intros [E n] HE. apply Hin in HE as (e & He & Hq & <- & <-). simpl. auto. }
  set (f := λ D, match Py.parse_date D with
                 | Some dD => candidates_for country dD event_set
                 | None => []
                 end).
  exists event_set,
    (no_weather_excuse_list_of weather_set poor ≫= f).
  split; [done|]. split; [|split; [|split]].
  - unfold event_candidates. rewrite Hweather. simpl. rewrite Hset. simpl.
    rewrite (for_each_appends _ f); [done|].
    intros D acc HD. unfold no_weather_excuse_list_of in HD.
    rewrite set_iter_elem_of, list_elem_of_filter, set_iter_elem_of in HD.
    destruct HD as [Hnot HD]. destruct (Hpoor D HD Hnot) as [dD HdD].
    unfold f. rewrite HdD. by apply no_excuse_date_step_Ok.
  - intros acc D dD HdD. by apply no_excuse_date_step_Ok.
  - intros dD E n dE HE HdE.
    assert (event_near dD (E, n) ↔ within_a_day dE dD) as Hnear.
    { unfold event_near. simpl. by rewrite HdE. }
    rewrite elem_of_candidates_for, Hnear. split; [tauto|].
    intros Hfar [_ Hday]. unfold within_a_day in Hday. lia.
  - intros c. rewrite list_elem_of_bind. split.
    + intros (D & Hc & HD). unfold no_weather_excuse_list_of in HD.
      rewrite set_iter_elem_of, list_elem_of_filter, set_iter_elem_of in HD.
      destruct HD as [Hnot HD]. unfold f in Hc.
      destruct (Py.parse_date D) as [dD|] eqn:HdD; [|by apply elem_of_nil in Hc].
      unfold candidates_for in Hc.
      apply list_elem_of_fmap in Hc as ([E n] & -> & [Hnear HE]%list_elem_of_filter).
      apply Hin in HE as (e & He & Hq & <- & <-).
      unfold event_near in Hnear. simpl in Hnear.
      destruct (Py.parse_date (ev_event_date e)) as [dE|] eqn:HdE; [|done].
      by exists D, dD, e, dE.
    + intros (D & dD & e & dE & HD & Hnot & HdD & He & Hq & HdE & Hday & ->).
      exists D. split.
      * unfold f. rewrite HdD.
        apply (elem_of_candidates_for country dD event_set
                 (ev_event_date e) (ev_event_name e)).
        split; [apply Hin; by exists e|].
        unfold event_near. simpl. by rewrite HdE.
      * unfold no_weather_excuse_list_of.
        rewrite set_iter_elem_of, list_elem_of_filter, set_iter_elem_of. done.
Qed.

(** ** [calculate_average_hours_per_week] *)

(** Addition of fractions, as [Qplus] computes it, is associative and
    commutative up to equality of numerators and denominators. *)
#[global] Instance Q_ExactAddition : ExactAddition Q.
Proof.
  split; simpl.
  - intros [xn xd] [yn yd] [zn zd]. unfold Qplus. simpl.
    rewrite Pos.mul_assoc. f_equal. rewrite !Pos2Z.inj_mul. ring.
  - intros [xn xd] [yn yd]. unfold Qplus. simpl.
    rewrite (Pos.mul_comm xd yd). f_equal. ring.
  - intros [xn xd]. unfold Qplus. simpl. f_equal. ring.
Qed.

Section HoursFacts.
Context {F : Type} `{ExactAddition F}.
Implicit Types (d : week_dict (F := F)) (k week : Z) (v x : F).

Lemma dict_get_None k d : dict_get k d = None ↔ k ∉ d.*1.
Proof.
  induction d as [|[k' v'] d IH]; simpl.
  - split; [|done]. intros _ []%elem_of_nil.
  - rewrite not_elem_of_cons. destruct (Z.eqb_spec k k') as [->|Hne].
    + split; [done|]. intros [? _]. done.
    + rewrite IH. tauto.
Qed.

Lemma dict_set_absent k v d :
  dict_get k d = None → dict_set k v d = d ++ [(k, v)].
Proof.
  induction d as [|[k' v'] d IH]; simpl; [done|].
  destruct (Z.eqb_spec k k'); [done|]. intros Hd. by rewrite IH.
Qed.

Lemma dict_set_keys k v v' d :
  dict_get k d = Some v → (dict_set k v' d).*1 = d.*1.
Proof.
  induction d as [|[k' w] d IH]; simpl; [done|].
  destruct (Z.eqb_spec k k'); [done|]. intros Hd. csimpl. by rewrite IH.
Qed.

Lemma foldl_add_shift a x (l : list F) :
  foldl num_add (num_add a x) l = num_add (foldl num_add a l) x.
Proof.
  revert a. induction l as [|y l IH]; intros a; simpl; [done|].
  rewrite <- IH. f_equal.
  rewrite <- !num_add_assoc. f_equal. apply num_add_comm.
Qed.

Lemma dict_set_sum k v x d a :
  dict_get k d = Some v →
  foldl num_add a (dict_set k (num_add v x) d).*2
  = num_add (foldl num_add a d.*2) x.
Proof.
  revert a. induction d as [|[k' w] d IH]; intros a; simpl; [done|].
  destruct (Z.eqb_spec k k') as [->|Hne].
  - intros [= ->]. simpl. by rewrite num_add_assoc, foldl_add_shift.
  - intros Hd. simpl. by apply IH.
Qed.

Lemma calculate_average_hours_per_week_step_Ok d r :
  computable r →
  calculate_average_hours_per_week_step d r
  = Ok (add_hours (week_of r) (hours_worked r) d).
Proof.
  intros [[day Hday] Htimes].
  unfold calculate_average_hours_per_week_step, add_hours, week_of,
    hours_worked.
  assert (match clock_in r, clock_out r with
          | Some start_time, Some stop_time =>
              calculate_total_hours start_time stop_time
          | _, _ => Ok num_zero
          end = Ok (hours_worked r)) as ->.
  { unfold hours_worked, calculate_total_hours.
    destruct (clock_in r) as [ci|], (clock_out r) as [co|]; try done.
    destruct (Htimes ci co) as [[a Ha] [b Hb]]; [done..|].
    simpl. by rewrite Ha, Hb. }
  simpl. rewrite Hday. simpl. unfold hours_worked.
  set (x := match clock_in r with | Some _ => _ | None => _ end).
  set (week := Py.iso_week day).
  destruct (dict_get week d) as [v|] eqn:Hget.
  - unfold dict_item. by rewrite Hget.
  - rewrite !dict_set_absent by done. unfold dict_item.
    assert (dict_get week (d ++ [(week, num_zero)]) = Some num_zero) as ->.
    { clear -Hget. induction d as [|[k' w] d IH]; simpl in *.
      - by rewrite Z.eqb_refl.
      - destruct (Z.eqb_spec week k'); [done|]. by apply IH. }
    simpl. f_equal.
    clear -Hget. induction d as [|[k' w] d IH]; simpl in *.
    + by rewrite Z.eqb_refl.
    + destruct (Z.eqb_spec week k'); [done|]. f_equal. by apply IH.
Qed.

Lemma week_dict_inv_step rows d r :
  week_dict_inv rows d →
  week_dict_inv (rows ++ [r]) (add_hours (week_of r) (hours_worked r) d).
Proof.
  intros (Hnd & Hkeys & Hsum). unfold add_hours, week_dict_inv.
  rewrite !fmap_app. unfold py_sum in *. rewrite foldl_app. simpl.
  destruct (dict_get (week_of r) d) as [v|] eqn:Hget.
  - rewrite (dict_set_keys _ v) by done. rewrite dict_set_sum by done.
    split; [done|]. split; [|by rewrite Hsum].
    intros k. rewrite elem_of_app, <- Hkeys, list_elem_of_singleton.
    split; [tauto|]. intros [?| ->]; [done|].
    apply dec_stable. intros Hk%dict_get_None. congruence.
  - rewrite !fmap_app, foldl_app. simpl. rewrite num_add_zero_l.
    apply dict_get_None in Hget. repeat split.
    + apply NoDup_app. repeat split; [done| |apply NoDup_singleton].
      intros k Hk ->%list_elem_of_singleton. done.
    + rewrite !elem_of_app, Hkeys. tauto.
    + rewrite !elem_of_app, Hkeys. tauto.
    + by rewrite Hsum.
Qed.

Lemma calculate_average_hours_per_week_loop rows :
  Forall computable rows →
  ∃ d, for_each calculate_average_hours_per_week_step rows [] = Ok d
       ∧ week_dict_inv rows d.
Proof.
  induction rows as [|r rows IH] using rev_ind; intros Hrows.
  - exists []. split; [done|]. repeat split; try done. constructor.
  - apply Forall_app in Hrows as [Hrows Hr]. apply Forall_inv in Hr.
    destruct (IH Hrows) as (d & Hd & Hinv).
    exists (add_hours (week_of r) (hours_worked r) d). split.
    + pose proof (calculate_average_hours_per_week_step_Ok d r Hr) as Hstep.
      rewrite for_each_app, Hd. unfold mbind at 1, result_bind at 1.
      by rewrite for_each_cons, Hstep.
    + by apply week_dict_inv_step.
Qed.

End HoursFacts.

Section GroupedHours.
Context {F : Type} `{Number F}.
Implicit Types (d : week_dict (F := F)) (k week : Z) (v x : F) (ws : list Z).









End GroupedHours.



Section Binary64.
#[local] Existing Instance binary64.


End Binary64.

Example average_of_employee_1 :
  ∃ q, calculate_average_hours_per_week (F := Q) employee_1_in_2023 = Ok q
       ∧ (q == (8 + 7 + 0 + (7 + (44 # 60)) + (7 + (45 # 60)) + 0) / 5)%Q.
Proof. eexists. split; [vm_compute; reflexivity|]. vm_compute. reflexivity. Qed.

(** ** [identify_delinquent_employees] *)

Section Reports.
Context `{SetOrder string} `{SetOrder (string * string)}.
Context {F : Type} `{Number F}.

Lemma identify_delinquent_employees_step_findings
    weather_data events_data attendance_data acc employee :
  identify_delinquent_employees_step weather_data events_data attendance_data
    acc employee
  = found ← findings weather_data events_data attendance_data employee;
    Ok (if decide (3 < length found.1)%nat
        then acc ++ [report_of employee found] else acc).
Proof.
  unfold identify_delinquent_employees_step, findings.
  destruct (get_employee_attendance_data _ _ _) as [rows|]; simpl; [|done].
  destruct (check_employee_times rows) as [poor|]; simpl; [|done].
  destruct (local weather_data) as [weather|]; simpl; [|done].
  destruct (local events_data) as [events|]; simpl; [|done].
  destruct (check_dates_against_events _ _ _ _) as [evs|]; simpl; [|done].
  destruct (calculate_average_hours_per_week rows) as [avg|]; simpl; [|done].
  by destruct (decide (3 < length evs)%nat).
Qed.

Lemma identify_delinquent_employees_step_Ok
    weather_data events_data attendance_data acc employee :
  is_Ok (findings weather_data events_data attendance_data employee) →
  identify_delinquent_employees_step weather_data events_data attendance_data
    acc employee
  = Ok (acc ++ reports_of weather_data events_data attendance_data employee).
Proof.
  intros [found Hfound].
  rewrite identify_delinquent_employees_step_findings. unfold reports_of.
  rewrite Hfound. simpl.
  destruct (decide (3 < length found.1)%nat); [done|by rewrite app_nil_r].
Qed.

Lemma zero_rows_raise weather_data events_data attendance_data employee :
  get_employee_attendance_data (record_id employee) attendance_data 2023
  = Ok [] →
  is_Err (findings weather_data events_data attendance_data employee)
  ∧ (∀ weather events,
       weather_data = Some weather → events_data = Some events →
       is_Ok (check_dates_against_events weather events []
                (emp_country employee)) →
       findings weather_data events_data attendance_data employee
       = Err ZeroDivisionError).
Proof.
  intros Hrows. unfold findings. rewrite Hrows, result_bind_Ok.
  change (check_employee_times []) with (Ok [] : result (list string)).
  rewrite result_bind_Ok. split.
  - destruct (local weather_data); [|by eexists].
    destruct (local events_data); [|by eexists]. rewrite !result_bind_Ok.
    destruct (check_dates_against_events _ _ _ _); by eexists.
  - intros weather events -> -> [evs Hevs]. unfold local.
    by rewrite !result_bind_Ok, Hevs.
Qed.

End Reports.

(** C7. For an employee without attendance rows in the year,
    [calculate_average_hours_per_week] is given no row and divides by zero.
    Nothing catches the exception: the loop body of
    [identify_delinquent_employees] raises for that employee, with
    [ZeroDivisionError] when the steps before it return, and the run returns
    no report. *)
Theorem calculate_average_hours_per_week_no_rows :
  ∀ `{SetOrder string} `{SetOrder (string * string)} {F : Type} `{Number F}
    (weather_data : option (list WeatherRecord))
    (events_data : option (list EventRecord))
    (employee_data : list Employee) (attendance_data : list AttendanceRecord)
    (employee : Employee),
    calculate_average_hours_per_week (F := F) [] = Err ZeroDivisionError
    ∧ (get_employee_attendance_data (record_id employee) attendance_data 2023
       = Ok [] →
       (∀ acc : list (Report F),
          is_Err (identify_delinquent_employees_step weather_data events_data
                    attendance_data acc employee))
       ∧ (∀ (acc : list (Report F)) weather events,
            weather_data = Some weather → events_data = Some events →
            is_Ok (check_dates_against_events weather events []
                     (emp_country employee)) →
            identify_delinquent_employees_step weather_data events_data
              attendance_data acc employee
            = Err ZeroDivisionError)
       ∧ (employee ∈ employee_data →
          is_Err (identify_delinquent_employees (F := F) weather_data
                    events_data employee_data attendance_data))).
Proof.
  intros O1 O2 F N weather_data events_data employee_data attendance_data
    employee.
  split; [done|]. intros Hrows.
  destruct (zero_rows_raise (F := F) weather_data events_data attendance_data
              employee Hrows) as [[e He] Hzero].
  assert (∀ acc : list (Report F),
            is_Err (identify_delinquent_employees_step weather_data
                      events_data attendance_data acc employee)) as Hstep.
  { intros acc. rewrite identify_delinquent_employees_step_findings, He.
    by exists e. }
  split; [done|]. split.
  - intros acc weather events Hw He' Hok.
    rewrite identify_delinquent_employees_step_findings.
    by rewrite (Hzero weather events).
  - intros Hin. by eapply for_each_raises.
Qed.

(** C6. When the computation of every employee returns,
    [identify_delinquent_employees] returns, in the order of the roster, one
    report for each employee whose list of events, after the removal of
    duplicates, has more than three entries, and nothing for an employee with
    three events or fewer. *)
Theorem identify_delinquent_employees_more_than_three :
  ∀ `{SetOrder string} `{SetOrder (string * string)} {F : Type} `{Number F}
    (weather_data : option (list WeatherRecord))
    (events_data : option (list EventRecord))
    (employee_data : list Employee) (attendance_data : list AttendanceRecord),
    (∀ employee, employee ∈ employee_data →
       is_Ok (findings (F := F) weather_data events_data attendance_data
                employee)) →
    ∃ wayward_employees : list (Report F),
      identify_delinquent_employees weather_data events_data employee_data
        attendance_data = Ok wayward_employees
      ∧ wayward_employees
        = employee_data ≫= reports_of weather_data events_data attendance_data
      ∧ (∀ r, r ∈ wayward_employees
              ↔ ∃ employee found,
                  employee ∈ employee_data
                  ∧ findings weather_data events_data attendance_data employee
                    = Ok found
                  ∧ (3 < length found.1)%nat
                  ∧ r = report_of employee found)
      ∧ (∀ emp found,
           findings weather_data events_data attendance_data emp = Ok found →
           (length found.1 <= 3)%nat →
           ∀ r, r ∈ wayward_employees → employee r ≠ emp).
Proof.
  intros O1 O2 F N weather_data events_data employee_data attendance_data Hok.
  assert (∀ r, r ∈ employee_data
                   ≫= reports_of weather_data events_data attendance_data
               ↔ ∃ employee found,
                   employee ∈ employee_data
                   ∧ findings weather_data events_data attendance_data employee
                     = Ok found
                   ∧ (3 < length found.1)%nat
                   ∧ r = report_of employee found) as Hin.
  { intros r. rewrite list_elem_of_bind. unfold reports_of. split.
    - intros (employee & Hr & Hemp).
      destruct (findings _ _ _ employee) as [found|] eqn:Hfound;
        [|by apply elem_of_nil in Hr].
      destruct (decide (3 < length found.1)%nat); [|by apply elem_of_nil in Hr].
      apply list_elem_of_singleton in Hr. by exists employee, found.
    - intros (employee & found & Hemp & Hfound & Hlen & ->).
      exists employee. rewrite Hfound, decide_True by done.
      split; [by apply list_elem_of_singleton|done]. }
  eexists. split; [|split; [done|split; [done|]]].
  - unfold identify_delinquent_employees.
    rewrite (for_each_appends _
               (reports_of weather_data events_data attendance_data)); [done|].
    intros employee acc Hemp.
    apply identify_delinquent_employees_step_Ok. auto.
  - intros emp found Hfound Hlen r Hr Heq.
    apply Hin in Hr as (emp' & found' & _ & Hfound' & Hlen' & ->).
    simpl in Heq. subst emp'.
    rewrite Hfound in Hfound'. injection Hfound' as <-. lia.
Qed.

(** ** The two pipelines *)










(** ** A year of one employee, end to end *)

Section Samples.
#[local] Existing Instance first_occurrence_order.



Example sample_no_weather_excuse :
  ∃ weather_set,
    weather_set_of sample_weather "US" = Ok weather_set
    ∧ no_weather_excuse_list_of weather_set sample_delinquent_dates
      = ["2023-06-05"; "2023-06-12"; "2023-06-19"; "2023-06-26"]%string.
Proof.
  exists (list_to_set ["2023-07-03"; "2023-01-01"]%string).
  split; vm_compute; reflexivity.
Qed.

Lemma event_candidates_within_a_day_witness :
  ∃ event_set candidates,
    event_set_of sample_events "US" = Ok event_set
    ∧ event_candidates sample_weather sample_events sample_delinquent_dates
        "US" = Ok candidates.
Proof.
  destruct (event_candidates_within_a_day sample_weather sample_events
              sample_delinquent_dates "US"
              (list_to_set ["2023-07-03"; "2023-01-01"]%string))
    as (event_set & candidates & Hset & Hcandidates & _).
  - vm_compute. reflexivity.
  - intros e He _. unfold sample_events in He.
    repeat (apply elem_of_cons in He as [->|He]; [by eexists|]).
    by apply elem_of_nil in He.
  - intros e He _. unfold sample_events in He.
    repeat (apply elem_of_cons in He as [->|He]; [by eexists|]).
    by apply elem_of_nil in He.
  - intros D HD _. unfold sample_delinquent_dates in HD.
    repeat (apply elem_of_cons in HD as [->|HD]; [by eexists|]).
    by apply elem_of_nil in HD.
  - exists event_set, candidates. split; assumption.
Defined.

Example sample_candidates :
  check_dates_against_events sample_weather sample_events
    sample_delinquent_dates "US"
  = Ok [ {| country := "US"; event_name := "Parade"; event_date := "2023-06-04" |};
         {| country := "US"; event_name := "Concert"; event_date := "2023-06-12" |};
         {| country := "US"; event_name := "Fair"; event_date := "2023-06-20" |};
         {| country := "US"; event_name := "Derby"; event_date := "2023-06-26" |} ].
Proof. vm_compute. reflexivity. Qed.

Lemma identify_delinquent_employees_more_than_three_witness :
  identify_delinquent_employees (F := Q) (Some sample_weather)
    (Some sample_events) [ann; bob] sample_attendance
  = Ok ([ann; bob]
          ≫= reports_of (Some sample_weather) (Some sample_events)
               sample_attendance).
Proof.
  destruct (identify_delinquent_employees_more_than_three (F := Q)
              (Some sample_weather) (Some sample_events) [ann; bob]
              sample_attendance) as (reports & Hrun & -> & _).
  - intros employee Hemp.
    repeat (apply elem_of_cons in Hemp as [->|Hemp];
            [eexists; vm_compute; reflexivity|]).
    by apply elem_of_nil in Hemp.
  - exact Hrun.
Defined.

(** Ann has five delinquent days, one of them on a hurricane day, and four
    events next to the other four: she is reported.  Bob has no delinquent
    day and is not. *)
Example sample_reports :
  ∃ average,
    identify_delinquent_employees (F := Q) (Some sample_weather)
      (Some sample_events) [ann; bob] sample_attendance
    = Ok [ {| employee := ann; average_hours_per_week := average;
              events :=
                [ {| country := "US"; event_name := "Parade";
                     event_date := "2023-06-04" |};
                  {| country := "US"; event_name := "Concert";
                     event_date := "2023-06-12" |};
                  {| country := "US"; event_name := "Fair";
                     event_date := "2023-06-20" |};
                  {| country := "US"; event_name := "Derby";
                     event_date := "2023-06-26" |} ] |} ].
Proof. eexists. vm_compute. reflexivity. Qed.

Lemma calculate_average_hours_per_week_no_rows_witness :
  is_Err (identify_delinquent_employees (F := Q) (Some sample_weather)
            (Some sample_events) [ann; cy] sample_attendance).
Proof.
  refine (proj2 (proj2 (proj2 (calculate_average_hours_per_week_no_rows
                                 (F := Q) (Some sample_weather)
                                 (Some sample_events) [ann; cy]
                                 sample_attendance cy) _)) _).
  - vm_compute. reflexivity.
  - right. left.
Defined.

(** Two events on the day of one delinquent date: which of the two names
    is kept depends on the order in which the set of events is iterated. *)
Example kept_event_depends_on_iteration_order :
  @check_dates_against_events first_occurrence_order first_occurrence_order
    mild_weather
    [event "US" "2023-06-05" "Parade"; event "US" "2023-06-05" "Rally"]
    ["2023-06-05"%string] "US"
  = Ok [ {| country := "US"; event_name := "Parade"; event_date := "2023-06-05" |} ]
  ∧ @check_dates_against_events first_occurrence_order last_inserted_first_order
      mild_weather
      [event "US" "2023-06-05" "Parade"; event "US" "2023-06-05" "Rally"]
      ["2023-06-05"%string] "US"
    = Ok [ {| country := "US"; event_name := "Rally"; event_date := "2023-06-05" |} ].
Proof. split; vm_compute; reflexivity. Qed.


Example four_late_days_hand_rolled :
  ∃ average,
    identify_delinquent_employees (F := Q) (Some mild_weather)
      (Some four_events) [ann] four_late_days
    = Ok [ {| employee := ann; average_hours_per_week := average;
              events :=
                [ {| country := "US"; event_name := "Parade";
                     event_date := "2023-06-05" |};
                  {| country := "US"; event_name := "Concert";
                     event_date := "2023-06-12" |};
                  {| country := "US"; event_name := "Fair";
                     event_date := "2023-06-19" |};
                  {| country := "US"; event_name := "Derby";
                     event_date := "2023-06-26" |} ] |} ].
Proof. eexists. vm_compute. reflexivity. Qed.

Example four_late_days_tabular :
  ∃ average,
    Alternate.analyze_data (F := Q) [ann] four_late_days (Some mild_weather)
      (Some four_events)
    = Ok [ {| employee := ann; average_hours_per_week := average;
              events :=
                [ {| country := "US"; event_name := "Parade";
                     event_date := "2023.06.05" |};
                  {| country := "US"; event_name := "Concert";
                     event_date := "2023.06.12" |};
                  {| country := "US"; event_name := "Fair";
                     event_date := "2023.06.19" |};
                  {| country := "US"; event_name := "Derby";
                     event_date := "2023.06.26" |} ] |} ].
Proof. eexists. vm_compute. reflexivity. Qed.

End Samples.

(** * Further properties of the code *)

(** ** Loops, continued *)

(** A loop that returns has run its body on every element. *)
Lemma for_each_Ok_inv {A S} (body : S → A → result S) (xs : list A) (s0 s : S) :
  for_each body xs s0 = Ok s →
  ∀ x, x ∈ xs → ∃ s1 s2, body s1 x = Ok s2.
Proof.
  revert s0. induction xs as [|y xs IH]; intros s0 Hrun x Hx.
  - by apply elem_of_nil in Hx.
  - rewrite for_each_cons in Hrun.
    destruct (body s0 y) as [s1|] eqn:Hy; [|done].
    rewrite result_bind_Ok in Hrun.
    apply elem_of_cons in Hx as [->|Hx]; [by exists s0, s1|by eapply IH].
Qed.

(** An invariant of the loop state that the body keeps for the elements of
    the list. *)
Lemma for_each_invariant_in {A S} (P : S → Prop) (body : S → A → result S)
    (xs : list A) (s0 s : S) :
  (∀ s1 x s2, x ∈ xs → P s1 → body s1 x = Ok s2 → P s2) →
  P s0 →
  for_each body xs s0 = Ok s → P s.
Proof.
  revert s0. induction xs as [|y xs IH]; intros s0 Hbody H0.
  - by intros [= <-].
  - rewrite for_each_cons. destruct (body s0 y) as [s1|] eqn:Hy; [|done].
    rewrite result_bind_Ok. apply IH.
    + intros s2 x s3 Hx. apply Hbody. by right.
    + eapply Hbody; [by left|done..].
Qed.

(** A loop whose body leaves the list as it is or appends one item related
    to the element: the items appended are related, in order, to a
    subsequence of the elements. *)
Lemma for_each_selects {A B} (R : B → A → Prop)
    (body : list B → A → result (list B)) (xs : list A) (acc out : list B) :
  (∀ acc1 x acc2, body acc1 x = Ok acc2 →
                  acc2 = acc1 ∨ ∃ y, acc2 = acc1 ++ [y] ∧ R y x) →
  for_each body xs acc = Ok out →
  ∃ l xs', out = acc ++ l ∧ xs' `sublist_of` xs ∧ Forall2 R l xs'.
Proof.
  intros Hbody. revert acc. induction xs as [|x xs IH]; intros acc.
  - intros [= <-]. exists [], []. by rewrite app_nil_r.
  - rewrite for_each_cons. destruct (body acc x) as [acc1|] eqn:Hx; [|done].
    rewrite result_bind_Ok. intros Hrun.
    destruct (IH _ Hrun) as (l & xs' & -> & Hsub & HR).
    destruct (Hbody _ _ _ Hx) as [->|(y & -> & Hy)].
    + exists l, xs'. split; [done|]. split; [by apply sublist_cons|done].
    + exists (y :: l), (x :: xs'). rewrite <- app_assoc.
      split; [done|]. split; [by apply sublist_skip|by constructor].
Qed.

(** ** [check_if_date_is_in_year], continued *)

Lemma split_head_hyphen_free p rest :
  hyphen_free p →
  Py.split_head "-" (p +:+ String "-" rest) = p ∧ Py.split_head "-" p = p.
Proof.
  unfold hyphen_free. induction p as [|c p IH]; simpl; [done|].
  rewrite not_elem_of_cons. intros [Hc Hp].
  destruct (Ascii.eqb_spec c "-") as [->|_]; [done|].
  destruct (IH Hp) as [-> ->]. done.
Qed.

(** X1. [check_if_date_is_in_year] reads the text before the first hyphen
    and nothing else: what follows the hyphen does not change the answer; on
    a date that [strptime] accepts with ["%Y-%m-%d"] it returns whether the
    calendar year is the given one; on a string that starts with a hyphen
    the text is empty and [int] raises [ValueError]. *)
Theorem check_if_date_is_in_year_reads_the_prefix :
  ∀ year : Z,
    (∀ p rest, hyphen_free p →
       check_if_date_is_in_year (p +:+ String "-" rest) year
       = check_if_date_is_in_year p year)
    ∧ (∀ s d, Py.parse_date s = Some d →
         check_if_date_is_in_year s year = Ok (Py.year d =? year))
    ∧ (∀ rest, check_if_date_is_in_year (String "-" rest) year = Err ValueError).
Proof.
  intros year. split; [|split].
  - intros p rest Hp. unfold check_if_date_is_in_year, date_year.
    by destruct (split_head_hyphen_free p rest Hp) as [-> ->].
  - intros s d Hd%date_year_parse_date. unfold check_if_date_is_in_year.
    by rewrite Hd.
  - intros rest. unfold check_if_date_is_in_year, date_year. simpl. done.
Qed.

Lemma check_if_date_is_in_year_reads_the_prefix_witness :
  check_if_date_is_in_year "2023-99-99" 2023
  = check_if_date_is_in_year "2023" 2023
  ∧ check_if_date_is_in_year "2023-06-05" 2023 = Ok true.
Proof.
  split.
  - refine (proj1 (check_if_date_is_in_year_reads_the_prefix 2023)
              "2023" "99-99" _).
    unfold hyphen_free. simpl. rewrite !not_elem_of_cons, elem_of_nil.
    repeat split; discriminate || tauto.
  - refine (proj1 (proj2 (check_if_date_is_in_year_reads_the_prefix 2023))
              "2023-06-05" (Py.mk_date 2023 6 5) _).
    reflexivity.
Defined.

(** ** [calculate_total_hours] *)

Lemma seconds_of_in_range t :
  time_in_range t → 0 <= Py.seconds_of t < 86400.
Proof. unfold time_in_range, Py.seconds_of. lia. Qed.

(** X2. [calculate_total_hours] returns exactly when [strptime] accepts both
    strings, and raises [ValueError] otherwise.  In exact arithmetic the
    result is the number of seconds from the first time to the second
    divided by 3600: it lies strictly between -24 and 24 and it is negative
    exactly when the second time is the earlier one; there is no wrap over
    midnight. *)
Theorem calculate_total_hours_signed_difference :
  ∀ start_time stop_time : string,
    (∀ start stop,
       Py.parse_time start_time = Some start →
       Py.parse_time stop_time = Some stop →
       ∃ hours : Q,
         calculate_total_hours start_time stop_time = Ok hours
         ∧ (hours == (Py.seconds_of stop - Py.seconds_of start) # 3600)%Q
         ∧ (-24 < hours)%Q ∧ (hours < 24)%Q
         ∧ ((hours < 0)%Q ↔ Py.seconds_of stop < Py.seconds_of start))
    ∧ (Py.parse_time start_time = None ∨ Py.parse_time stop_time = None →
       calculate_total_hours (F := Q) start_time stop_time = Err ValueError).
Proof.
  intros start_time stop_time. split.
  - intros start stop Hstart Hstop.
    pose proof (seconds_of_in_range _ (parse_time_in_range _ _ Hstart)).
    pose proof (seconds_of_in_range _ (parse_time_in_range _ _ Hstop)).
    unfold calculate_total_hours. simpl. rewrite Hstart, Hstop. simpl.
    eexists. split; [done|].
    set (n := Py.seconds_of stop - Py.seconds_of start).
    assert (-86400 < n < 86400) by (unfold n; lia).
    unfold Qdiv, Qmult, Qinv, Qeq, Qlt, inject_Z. simpl.
    repeat split; try lia.
  - intros Hbad. unfold calculate_total_hours. simpl.
    destruct (Py.parse_time start_time); simpl; [|done].
    destruct Hbad as [? | ->]; done.
Qed.

Lemma calculate_total_hours_signed_difference_witness :
  ∃ hours : Q,
    calculate_total_hours "16:00:00" "08:15:00" = Ok hours
    ∧ (hours == (29700 - 57600) # 3600)%Q.
Proof.
  destruct (proj1 (calculate_total_hours_signed_difference "16:00:00" "08:15:00")
              (Py.mk_time 16 0 0) (Py.mk_time 8 15 0) eq_refl eq_refl)
    as (hours & Hhours & Heq & _).
  exists hours. split; [exact Hhours|exact Heq].
Defined.

(** ** [remove_duplicate_events], continued *)

Lemma remove_duplicate_events_snoc earlier event :
  remove_duplicate_events (earlier ++ [event])
  = if decide (event_date event ∈ event_date <$> earlier)
    then remove_duplicate_events earlier
    else remove_duplicate_events earlier ++ [event].
Proof.
  unfold remove_duplicate_events. rewrite foldl_app. simpl.
  destruct (dedup_inv_loop earlier) as (HU & _).
  destruct (foldl remove_duplicate_events_step (∅, []) earlier)
    as [unique_dates unique_events]; simpl in *.
  subst unique_dates. unfold remove_duplicate_events_step.
  destruct (decide (event_date event ∈ event_date <$> earlier)) as [Hin|Hin];
    destruct (decide (event_date event
                      ∈ (list_to_set (event_date <$> earlier) : gset string)))
      as [Hin'|Hin']; try done;
    rewrite elem_of_list_to_set in Hin'; done.
Qed.

Lemma remove_duplicate_events_sublist event_data :
  remove_duplicate_events event_data `sublist_of` event_data
  ∧ NoDup (event_date <$> remove_duplicate_events event_data).
Proof.
  destruct (dedup_inv_loop event_data) as (_ & Hsub & Hnd & _). done.
Qed.

Lemma remove_duplicate_events_distinct event_data :
  NoDup (event_date <$> event_data) →
  remove_duplicate_events event_data = event_data.
Proof.
  induction event_data as [|event earlier IH] using rev_ind; [done|].
  rewrite fmap_app. intros (Hearlier & Hnew & _)%NoDup_app.
  rewrite remove_duplicate_events_snoc, IH by done.
  rewrite decide_False; [done|]. intros Hin. eapply Hnew; [done|]. by left.
Qed.

(** X3. [remove_duplicate_events] is idempotent and never lengthens the
    list: applied to its own output it changes nothing. *)
Theorem remove_duplicate_events_idempotent :
  ∀ event_data : list EventReason,
    remove_duplicate_events (remove_duplicate_events event_data)
    = remove_duplicate_events event_data
    ∧ (length (remove_duplicate_events event_data) <= length event_data)%nat.
Proof.
  intros event_data.
  destruct (remove_duplicate_events_sublist event_data) as [Hsub Hnd].
  split; [by apply remove_duplicate_events_distinct|by apply sublist_length].
Qed.

(** X4. [remove_duplicate_events] returns its input unchanged exactly when
    the event dates of the input are pairwise distinct; two events of the same
    day with different names are not both kept. *)
Theorem remove_duplicate_events_identity_iff_distinct_dates :
  ∀ event_data : list EventReason,
    remove_duplicate_events event_data = event_data
    ↔ NoDup (event_date <$> event_data).
Proof.
  intros event_data. split.
  - intros Heq. rewrite <- Heq. apply remove_duplicate_events_sublist.
  - apply remove_duplicate_events_distinct.
Qed.

(** ** [check_employee_times], continued *)

Lemma check_employee_times_step_Ok_classifiable acc r acc' :
  check_employee_times_step acc r = Ok acc' → classifiable r.
Proof.
  unfold check_employee_times_step, classifiable, is_absent, clock_times.
  destruct (clock_in r) as [ci|], (clock_out r) as [co|]; simpl.
  - destruct (Py.parse_time ci); simpl; [|done].
    destruct (Py.parse_time co); simpl; [|done].
    intros _. right. by eexists.
  - by destruct (Py.parse_time ci).
  - done.
  - by left.
Qed.

(** X5. [check_employee_times] returns exactly when every row has both times
    missing or both times present and accepted by [strptime]; any other row
    makes it raise.  In a row with both times present a malformed one raises
    [ValueError]. *)
Theorem check_employee_times_returns_iff_classifiable :
  ∀ employee_attendance_data : list AttendanceRecord,
    (is_Ok (check_employee_times employee_attendance_data)
     ↔ Forall classifiable employee_attendance_data)
    ∧ (∀ acc r ci co,
         clock_in r = Some ci → clock_out r = Some co →
         Py.parse_time ci = None ∨ Py.parse_time co = None →
         check_employee_times_step acc r = Err ValueError).
Proof.
  intros rows. split; [split|].
  - intros [dates Hrun]. apply Forall_forall. intros r Hr.
    destruct (for_each_Ok_inv _ _ _ _ Hrun r Hr) as (acc & acc' & Hstep).
    by eapply check_employee_times_step_Ok_classifiable.
  - intros Hrows. eexists. unfold check_employee_times.
    apply (for_each_appends _
             (λ r, if decide (delinquent r) then [date r] else [])).
    intros r acc Hr. apply check_employee_times_step_classifiable.
    by eapply Forall_forall in Hrows.
  - intros acc r ci co Hci Hco Hbad. unfold check_employee_times_step.
    rewrite Hci, Hco. simpl.
    destruct (Py.parse_time ci); simpl; [|done].
    destruct Hbad as [? | ->]; done.
Qed.

Lemma check_employee_times_step_selects acc r acc' :
  check_employee_times_step acc r = Ok acc' →
  acc' = acc ∨ ∃ d, acc' = acc ++ [d] ∧ d = date r.
Proof.
  unfold check_employee_times_step.
  destruct (clock_in r) as [ci|], (clock_out r) as [co|]; simpl;
    repeat match goal with
           | |- context [Py.parse_time ?s] => destruct (Py.parse_time s); simpl
           end; try done;
    try (destruct (_ || _)); intros [= <-]; eauto.
Qed.

(** X6. [check_employee_times] never invents or reorders a date: what it
    returns is a subsequence of the dates of its rows. *)
Theorem check_employee_times_subsequence :
  ∀ (employee_attendance_data : list AttendanceRecord)
    (delinquent_data : list string),
    check_employee_times employee_attendance_data = Ok delinquent_data →
    delinquent_data `sublist_of` (date <$> employee_attendance_data)
    ∧ (length delinquent_data <= length employee_attendance_data)%nat.
Proof.
  intros rows dates Hrun.
  destruct (for_each_selects (λ d r, d = date r) _ _ _ _
              check_employee_times_step_selects Hrun)
    as (l & rows' & -> & Hsub & HR).
  assert (l = date <$> rows') as ->.
  { clear -HR. induction HR; simpl; [done|]. by subst. }
  simpl. split; [by apply fmap_sublist|].
  rewrite length_fmap. by apply sublist_length.
Qed.

Lemma check_employee_times_subsequence_witness :
  ["2023-06-05"; "2023-06-12"; "2023-06-19"; "2023-06-26"; "2023-07-03"]%string
  `sublist_of` (date <$> employee_1_in_2023).
Proof.
  apply (check_employee_times_subsequence employee_1_in_2023).
  reflexivity.
Defined.

Lemma remove_duplicate_events_identity_iff_distinct_dates_witness :
  remove_duplicate_events
    [ {| country := "US"; event_name := "Parade"; event_date := "2023-06-04" |};
      {| country := "US"; event_name := "Fair"; event_date := "2023-06-12" |} ]
  = [ {| country := "US"; event_name := "Parade"; event_date := "2023-06-04" |};
      {| country := "US"; event_name := "Fair"; event_date := "2023-06-12" |} ].
Proof.
  apply remove_duplicate_events_identity_iff_distinct_dates. simpl.
  apply NoDup_cons. split.
  - rewrite list_elem_of_singleton. discriminate.
  - apply NoDup_singleton.
Defined.

Lemma check_employee_times_returns_iff_classifiable_witness :
  is_Ok (check_employee_times employee_1_in_2023).
Proof.
  apply (proj1 (check_employee_times_returns_iff_classifiable
                  employee_1_in_2023)).
  apply Forall_forall. intros r Hr. unfold employee_1_in_2023 in Hr.
  repeat (apply elem_of_cons in Hr as [->|Hr];
          [(by left) || (right; by eexists)|]).
  by apply elem_of_nil in Hr.
Defined.

(** ** [get_employee_attendance_data], continued *)

Lemma get_employee_attendance_data_Ok_filter record_id rows year :
  (∀ r, r ∈ rows → employee_record_id r = record_id →
        is_Some (date_year (date r))) →
  get_employee_attendance_data record_id rows year
  = Ok (filter (belongs_to record_id year) rows).
Proof.
  intros Hyear. unfold get_employee_attendance_data.
  rewrite (for_each_appends _
             (λ r, if decide (belongs_to record_id year r) then [r] else [])).
  - simpl. by rewrite bind_filter_singleton.
  - intros r acc Hr. apply get_employee_attendance_data_step_Ok. eauto.
Qed.

Lemma get_employee_attendance_data_Ok_inv record_id rows year out :
  get_employee_attendance_data record_id rows year = Ok out →
  ∀ r, r ∈ rows → employee_record_id r = record_id →
       is_Some (date_year (date r)).
Proof.
  intros Hrun r Hr Hid.
  destruct (for_each_Ok_inv _ _ _ _ Hrun r Hr) as (acc & acc' & Hstep).
  unfold get_employee_attendance_data_step in Hstep.
  rewrite decide_True in Hstep by done.
  unfold check_if_date_is_in_year in Hstep.
  by destruct (date_year (date r)).
Qed.

(** X7. When [get_employee_attendance_data] returns, every row it returns
    has the given [employee_record_id] and the given year, the result is the
    filter of the data set whatever the rows of other employees hold, and the
    function is idempotent: on its own result, with the same arguments, it
    returns that result, and with another record id the empty list. *)
Theorem get_employee_attendance_data_idempotent :
  ∀ (record_id : Z) (employee_attendance_data : list AttendanceRecord)
    (year : Z) (employee_data : list AttendanceRecord),
    get_employee_attendance_data record_id employee_attendance_data year
    = Ok employee_data →
    employee_data = filter (belongs_to record_id year) employee_attendance_data
    ∧ Forall (belongs_to record_id year) employee_data
    ∧ get_employee_attendance_data record_id employee_data year
      = Ok employee_data
    ∧ (∀ other, other ≠ record_id →
         get_employee_attendance_data other employee_data year = Ok []).
Proof.
  intros record_id rows year out Hrun.
  pose proof (get_employee_attendance_data_Ok_inv _ _ _ _ Hrun) as Hyear.
  rewrite get_employee_attendance_data_Ok_filter in Hrun by done.
  injection Hrun as <-.
  assert (Forall (belongs_to record_id year)
            (filter (belongs_to record_id year) rows)) as Hall.
  { apply Forall_forall. intros r Hr%list_elem_of_filter. tauto. }
  split; [done|]. split; [done|]. split.
  - rewrite get_employee_attendance_data_Ok_filter.
    + f_equal. by apply list_filter_filter_r.
    + intros r Hr%list_elem_of_filter _. destruct Hr as [[_ Hy] _].
      by rewrite Hy.
  - intros other Hother. rewrite get_employee_attendance_data_Ok_filter.
    + f_equal. rewrite list_filter_filter.
      induction rows as [|r rows IH]; [done|].
      rewrite filter_cons_False; [|unfold belongs_to; intros [[? _] [? _]];
                                    congruence].
      apply IH.
      * intros r' Hr'. apply Hyear. by right.
      * apply Forall_forall. intros r' Hr'%list_elem_of_filter. tauto.
    + intros r Hr _. rewrite Forall_forall in Hall.
      destruct (Hall r Hr) as [_ Hy]. by rewrite Hy.
Qed.

Lemma get_employee_attendance_data_idempotent_witness :
  get_employee_attendance_data 1 employee_1_in_2023 2023 = Ok employee_1_in_2023.
Proof.
  apply (get_employee_attendance_data_idempotent 1 sample_attendance 2023).
  reflexivity.
Defined.

(** X8. The dates that [check_employee_times] finds in the rows that
    [get_employee_attendance_data] returned for an employee and a year are
    dates of rows of that employee in the data set, and the year that
    [check_if_date_is_in_year] reads off each of them is that year. *)
Theorem delinquent_dates_of_the_employee_and_year :
  ∀ (record_id : Z) (attendance_data : list AttendanceRecord) (year : Z)
    (employee_attendance_data : list AttendanceRecord)
    (poor_employee_attendance_data : list string),
    get_employee_attendance_data record_id attendance_data year
    = Ok employee_attendance_data →
    check_employee_times employee_attendance_data
    = Ok poor_employee_attendance_data →
    ∀ d, d ∈ poor_employee_attendance_data →
         date_year d = Some year
         ∧ ∃ r, r ∈ attendance_data ∧ employee_record_id r = record_id
                ∧ date r = d.
Proof.
  intros record_id attendance_data year rows dates Hrows Hdates d Hd.
  pose proof (get_employee_attendance_data_Ok_inv _ _ _ _ Hrows) as Hyear.
  rewrite get_employee_attendance_data_Ok_filter in Hrows by done.
  injection Hrows as <-.
  destruct (for_each_selects (λ d r, d = date r) _ _ _ _
              check_employee_times_step_selects Hdates)
    as (l & rows' & -> & Hsub & HR).
  simpl in Hd.
  assert (∃ r, r ∈ rows' ∧ d = date r) as (r & Hr & ->).
  { clear -HR Hd. induction HR as [|d' r' l rows' Hd' HR IH].
    - by apply elem_of_nil in Hd.
    - apply elem_of_cons in Hd as [->|Hd].
      + exists r'. split; [by left|done].
      + destruct (IH Hd) as (r & Hr & ->). exists r. split; [by right|done]. }
  eapply elem_of_sublist in Hr; [|done].
  apply list_elem_of_filter in Hr as [[Hid Hy] Hr].
  split; [done|]. by exists r.
Qed.

Lemma delinquent_dates_of_the_employee_and_year_witness :
  date_year "2023-06-19" = Some 2023.
Proof.
  refine (proj1 (delinquent_dates_of_the_employee_and_year 1 sample_attendance
                   2023 employee_1_in_2023
                   ["2023-06-05"; "2023-06-12"; "2023-06-19"; "2023-06-26";
                    "2023-07-03"]%string _ _ "2023-06-19"%string _)).
  - reflexivity.
  - reflexivity.
  - do 2 right. left.
Defined.

(** ** [check_dates_against_events], continued *)

Lemma event_set_step_selects country acc e acc' :
  event_set_step country acc e = Ok acc' →
  acc' = acc
  ∨ (acc' = acc ++ [(ev_event_date e, ev_event_name e)]
     ∧ qualifying_event country e).
Proof.
  unfold event_set_step, is_event_of, qualifying_event.
  destruct (decide (ev_country e = country)) as [Hc|Hc];
    [|intros [= <-]; by left].
  unfold check_if_date_is_in_year.
  destruct (date_year (ev_event_date e)) as [y|]; [|done].
  rewrite result_bind_Ok. destruct (Z.eqb_spec y 2023) as [->|_];
    intros [= <-]; [by right|by left].
Qed.

Lemma event_set_of_sound `{SetOrder (string * string)}
    events_data country event_set :
  event_set_of events_data country = Ok event_set →
  ∀ E n, (E, n) ∈ event_set →
         ∃ source, source ∈ events_data ∧ qualifying_event country source
                   ∧ ev_event_date source = E ∧ ev_event_name source = n.
Proof.
  unfold event_set_of.
  destruct (for_each (event_set_step country) events_data []) as [l|] eqn:Hrun;
    [|done].
  intros [= <-] E n. rewrite set_iter_elem_of.
  revert E n.
  assert (Forall (λ p, ∃ source, source ∈ events_data
                                 ∧ qualifying_event country source
                                 ∧ ev_event_date source = p.1
                                 ∧ ev_event_name source = p.2) l) as Hall.
  { revert Hrun. apply for_each_invariant_in; [|constructor].
    intros acc e acc' He Hacc [->|[-> Hq]]%event_set_step_selects; [done|].
    apply Forall_app. split; [done|]. apply Forall_singleton. by exists e. }
  intros E n Hin. rewrite Forall_forall in Hall. by apply (Hall (E, n)).
Qed.

Lemma event_set_loop_keeps country events_data acc l :
  for_each (event_set_step country) events_data acc = Ok l →
  ∃ l', l = acc ++ l'.
Proof.
  intros Hrun.
  destruct (for_each_selects (λ _ _, True) _ _ _ _
              (λ a x a' Hs,
                 match event_set_step_selects country a x a' Hs with
                 | or_introl Heq => or_introl Heq
                 | or_intror (conj Heq _) =>
                     or_intror (ex_intro _ _ (conj Heq I))
                 end) Hrun) as (l' & _ & -> & _).
  by exists l'.
Qed.

Lemma event_set_of_complete `{SetOrder (string * string)}
    events_data country event_set e :
  event_set_of events_data country = Ok event_set →
  e ∈ events_data → qualifying_event country e →
  (ev_event_date e, ev_event_name e) ∈ event_set.
Proof.
  unfold event_set_of.
  destruct (for_each (event_set_step country) events_data []) as [l|] eqn:Hrun;
    [|done].
  intros [= <-] He [Hc Hy]. rewrite set_iter_elem_of.
  revert Hrun. generalize (@nil (string * string)). revert l.
  induction events_data as [|e' es IH]; intros l acc;
    [by apply elem_of_nil in He|].
  rewrite for_each_cons.
  destruct (event_set_step country acc e') as [acc1|] eqn:Hstep; [|done].
  rewrite result_bind_Ok. intros Hrun.
  apply elem_of_cons in He as [<-|He]; [|by eapply IH].
  unfold event_set_step, is_event_of, check_if_date_is_in_year in Hstep.
  rewrite decide_True, Hy in Hstep by done. injection Hstep as <-.
  destruct (event_set_loop_keeps _ _ _ _ Hrun) as [l' ->].
  rewrite !elem_of_app, list_elem_of_singleton. auto.
Qed.

Lemma event_reason_step_selects country dD acc event acc' :
  event_reason_step country dD acc event = Ok acc' →
  acc' = acc
  ∨ (acc' = acc ++ [reason_of country event]
     ∧ ∃ dE, Py.parse_date event.1 = Some dE ∧ within_a_day dE dD).
Proof.
  destruct event as [E n]. unfold event_reason_step, Py.strptime.
  destruct (Py.parse_date E) as [dE|] eqn:HE; [|done].
  rewrite result_bind_Ok.
  destruct (decide (_ ∈ window)) as [Hw|_]; intros [= <-]; [|by left].
  right. split; [done|]. exists dE. split; [done|].
  apply in_window in Hw. unfold within_a_day. lia.
Qed.

Lemma check_dates_against_events_explained :
  ∀ `{SetOrder string} `{SetOrder (string * string)}
    (weather_data : list WeatherRecord) (events_data : list EventRecord)
    (poor_employee_attendance_data : list string) (country : string)
    (event_reason_list : list EventReason),
    check_dates_against_events weather_data events_data
      poor_employee_attendance_data country = Ok event_reason_list →
    NoDup (event_date <$> event_reason_list)
    ∧ Forall (explained_by country events_data poor_employee_attendance_data)
        event_reason_list.
Proof.
  intros O1 O2 weather_data events_data poor country events.
  unfold check_dates_against_events.
  destruct (event_candidates _ _ _ _) as [candidates|] eqn:Hc; [|done].
  intros [= <-].
  destruct (remove_duplicate_events_sublist candidates) as [Hsub Hnd].
  split; [done|].
  cut (Forall (explained_by country events_data poor) candidates).
  { rewrite !Forall_forall. intros Hall e He.
    eapply Hall, elem_of_sublist; done. }
  clear Hsub Hnd. revert Hc. unfold event_candidates.
  destruct (weather_set_of weather_data country) as [weather_set|]; [|done].
  rewrite result_bind_Ok.
  destruct (event_set_of events_data country) as [event_set|] eqn:Hset; [|done].
  rewrite result_bind_Ok.
  apply for_each_invariant_in; [|constructor].
  intros acc D acc' HD Hacc. unfold no_excuse_date_step, Py.strptime.
  destruct (Py.parse_date D) as [dD|] eqn:HdD; [|done].
  rewrite result_bind_Ok. revert Hacc. apply for_each_invariant_in.
  intros acc1 [E n] acc2 HE Hacc1
    [->|[-> (dE & HdE & Hday)]]%event_reason_step_selects; [done|].
  apply Forall_app. split; [done|]. apply Forall_singleton.
  destruct (event_set_of_sound _ _ _ Hset E n HE) as (source & ? & ? & ? & ?).
  unfold no_weather_excuse_list_of in HD.
  rewrite set_iter_elem_of, list_elem_of_filter, set_iter_elem_of in HD.
  destruct HD as [_ HD].
  split; [done|]. exists source, D, dD, dE. by repeat (split; [done|]).
Qed.

(** X9. Every event that [check_dates_against_events] returns carries the
    country it was asked for, is an event of that country in 2023 in the
    events data, and is dated within a day of one of the delinquent dates
    given; no two returned events have the same date. *)
Theorem check_dates_against_events_sound :
  ∀ `{SetOrder string} `{SetOrder (string * string)}
    (weather_data : list WeatherRecord) (events_data : list EventRecord)
    (poor_employee_attendance_data : list string) (country : string)
    (event_reason_list : list EventReason),
    check_dates_against_events weather_data events_data
      poor_employee_attendance_data country = Ok event_reason_list →
    NoDup (event_date <$> event_reason_list)
    ∧ Forall (explained_by country events_data poor_employee_attendance_data)
        event_reason_list.
Proof.
  intros O1 O2 weather_data events_data poor country events Hrun.
  by apply (check_dates_against_events_explained weather_data).
Qed.

(** X10. When every delinquent date is the date of a severe-weather row of
    the country, [check_dates_against_events] returns no event, whatever the
    events are; neither the delinquent dates nor the event dates are then
    given to [strptime]. *)
Theorem check_dates_against_events_all_excused :
  ∀ `{SetOrder string} `{SetOrder (string * string)}
    (weather_data : list WeatherRecord) (events_data : list EventRecord)
    (poor_employee_attendance_data : list string) (country : string),
    (∀ w, w ∈ weather_data → w_country w = country →
          is_Some (date_year (w_date w))) →
    (∀ e, e ∈ events_data → ev_country e = country →
          is_Some (date_year (ev_event_date e))) →
    (∀ D, D ∈ poor_employee_attendance_data →
          ∃ w, w ∈ weather_data ∧ w_date w = D
               ∧ severe_weather_row country w) →
    check_dates_against_events weather_data events_data
      poor_employee_attendance_data country = Ok [].
Proof.
  intros O1 O2 weather_data events_data poor country Hweather Hevents Hall.
  destruct (weather_set_loop country weather_data ∅ Hweather)
    as (weather_set & Hset & Hin).
  destruct (event_set_of_Ok events_data country Hevents)
    as (event_set & Hevs & _).
  unfold check_dates_against_events, event_candidates, weather_set_of.
  rewrite Hset, result_bind_Ok, Hevs, result_bind_Ok.
  assert (no_weather_excuse_list_of weather_set poor = []) as ->; [|done].
  apply elem_of_nil_inv. intros D. unfold no_weather_excuse_list_of.
  rewrite set_iter_elem_of, list_elem_of_filter, set_iter_elem_of.
  intros [Hnot HD]. apply Hnot, Hin. right. by apply Hall.
Qed.

(** X11. [check_dates_against_events] raises when a weather row or an event
    row of the country has a date without a readable year, whatever the
    delinquent dates are; and, once the weather set is built, when a
    delinquent date without excuse is not a date for [strptime], or when
    there is such a date and an event of the country in 2023 whose date is
    not one. *)
Theorem check_dates_against_events_raises :
  ∀ `{SetOrder string} `{SetOrder (string * string)}
    (weather_data : list WeatherRecord) (events_data : list EventRecord)
    (poor_employee_attendance_data : list string) (country : string),
    ((∃ w, w ∈ weather_data ∧ w_country w = country
           ∧ date_year (w_date w) = None) →
     is_Err (check_dates_against_events weather_data events_data
               poor_employee_attendance_data country))
    ∧ ((∃ e, e ∈ events_data ∧ ev_country e = country
             ∧ date_year (ev_event_date e) = None) →
       is_Err (check_dates_against_events weather_data events_data
                 poor_employee_attendance_data country))
    ∧ (∀ weather_set D,
         weather_set_of weather_data country = Ok weather_set →
         D ∈ poor_employee_attendance_data → D ∉ weather_set →
         Py.parse_date D = None
         ∨ (∃ e, e ∈ events_data ∧ qualifying_event country e
                 ∧ Py.parse_date (ev_event_date e) = None) →
         is_Err (check_dates_against_events weather_data events_data
                   poor_employee_attendance_data country)).
Proof.
  intros O1 O2 weather_data events_data poor country.
  assert (∀ r : result (list EventReason),
            is_Err r → is_Err (remove_duplicate_events <$> r)) as Hfmap.
  { intros r [e ->]. by exists e. }
  unfold check_dates_against_events, event_candidates.
  split; [|split].
  - intros (w & Hw & Hc & Hy). apply Hfmap.
    assert (is_Err (weather_set_of weather_data country)) as [e ->];
      [|by exists e].
    eapply for_each_raises; [done|]. intros acc.
    unfold weather_set_step, is_severe_weather, check_if_date_is_in_year.
    rewrite decide_True, Hy by done. by eexists.
  - intros (e & He & Hc & Hy). apply Hfmap.
    destruct (weather_set_of weather_data country); [|by eexists].
    rewrite result_bind_Ok.
    assert (is_Err (event_set_of events_data country)) as [err ->];
      [|by exists err].
    unfold event_set_of.
    assert (is_Err (for_each (event_set_step country) events_data []))
      as [err ->]; [|by exists err].
    eapply for_each_raises; [done|]. intros acc.
    unfold event_set_step, is_event_of, check_if_date_is_in_year.
    rewrite decide_True, Hy by done. by eexists.
  - intros weather_set D Hset HD Hnot Hbad. apply Hfmap.
    rewrite Hset, result_bind_Ok.
    destruct (event_set_of events_data country) as [event_set|] eqn:Hevs;
      [|by eexists].
    rewrite result_bind_Ok. eapply (for_each_raises _ _ _ D).
    { unfold no_weather_excuse_list_of.
      rewrite set_iter_elem_of, list_elem_of_filter, set_iter_elem_of. done. }
    intros acc. unfold no_excuse_date_step, Py.strptime.
    destruct (Py.parse_date D) as [dD|] eqn:HdD; [|by eexists].
    rewrite result_bind_Ok.
    destruct Hbad as [?|(e & He & Hq & Hparse)]; [done|].
    eapply (for_each_raises _ _ _ (ev_event_date e, ev_event_name e)).
    + by eapply event_set_of_complete.
    + intros acc'. unfold event_reason_step, Py.strptime.
      rewrite Hparse. by eexists.
Qed.

(** ** [calculate_average_hours_per_week], continued *)

Section AverageFacts.
Context {F : Type} `{Number F}.
Implicit Types (d : week_dict (F := F)) (k : Z) (v x : F).

Lemma dict_get_set_eq k v d : dict_get k (dict_set k v d) = Some v.
Proof.
  induction d as [|[k' w] d IH]; simpl.
  - by rewrite Z.eqb_refl.
  - destruct (Z.eqb_spec k k') as [->|Hne]; simpl.
    + by rewrite Z.eqb_refl.
    + by destruct (Z.eqb_spec k k').
Qed.

Lemma dict_set_not_nil k v d : dict_set k v d ≠ [].
Proof. destruct d as [|[k' w] d]; simpl; [done|]. by destruct (k =? k'). Qed.

Lemma week_total_update_Ok week (total : F) d :
  ∃ d',
    (let d1 := if dict_get week d is Some _ then d
               else dict_set week num_zero d in
     week_total ← dict_item week d1;
     Ok (dict_set week (num_add week_total total) d1)) = Ok d'
    ∧ d' ≠ [].
Proof.
  simpl. unfold dict_item. destruct (dict_get week d) as [v|] eqn:Hget.
  - rewrite Hget. simpl. eexists. split; [done|]. apply dict_set_not_nil.
  - rewrite dict_get_set_eq. simpl. eexists. split; [done|].
    apply dict_set_not_nil.
Qed.

Lemma total_hours_of_row r :
  (∃ total : F,
     match clock_in r, clock_out r with
     | Some start_time, Some stop_time =>
         calculate_total_hours start_time stop_time
     | _, _ => Ok num_zero
     end = Ok total
     ∧ ∀ ci co, clock_in r = Some ci → clock_out r = Some co →
                is_Some (Py.parse_time ci) ∧ is_Some (Py.parse_time co))
  ∨ match clock_in r, clock_out r with
    | Some start_time, Some stop_time =>
        calculate_total_hours (F := F) start_time stop_time
    | _, _ => Ok num_zero
    end = Err ValueError.
Proof.
  unfold calculate_total_hours, Py.strptime.
  destruct (clock_in r) as [ci|], (clock_out r) as [co|];
    try (left; eexists; split; [done|]; by intros ? ? [=] || by intros ? ? ? [=]).
  destruct (Py.parse_time ci) eqn:Hci; simpl; [|by right].
  destruct (Py.parse_time co) eqn:Hco; simpl; [|by right].
  left. eexists. split; [done|]. intros ? ? [= <-] [= <-].
  rewrite Hci, Hco. split; by eexists.
Qed.

Lemma calculate_average_hours_per_week_step_inv d r :
  (∀ d', calculate_average_hours_per_week_step d r = Ok d' →
         computable r ∧ d' ≠ [])
  ∧ (∀ e, calculate_average_hours_per_week_step d r = Err e → e = ValueError).
Proof.
  unfold calculate_average_hours_per_week_step, computable.
  destruct (total_hours_of_row r) as [(total & -> & Htimes)| ->];
    [|split; [done|by intros e [= <-]]].
  rewrite result_bind_Ok. unfold Py.strptime.
  destruct (Py.parse_date (date r)) as [day|] eqn:Hday;
    [|split; [done|by intros e [= <-]]].
  rewrite result_bind_Ok.
  destruct (week_total_update_Ok (Py.iso_week day) total d) as (d' & Hd' & Hne).
  cbv zeta in Hd' |- *. rewrite Hd'.
  split; [|done]. intros d'' [= <-]. split; [|done]. split; [by eexists|done].
Qed.

Lemma calculate_average_hours_per_week_loop_Ok rows :
  Forall computable rows →
  ∃ d, for_each calculate_average_hours_per_week_step rows [] = Ok d
       ∧ (rows ≠ [] → d ≠ []).
Proof.
  induction rows as [|r rows IH] using rev_ind; intros Hrows.
  - by exists [].
  - apply Forall_app in Hrows as [Hrows Hr]. apply Forall_inv in Hr.
    destruct (IH Hrows) as (d & Hd & _).
    pose proof (calculate_average_hours_per_week_step_Ok d r Hr) as Hstep.
    eexists. rewrite for_each_app, Hd, result_bind_Ok, for_each_cons, Hstep.
    split; [done|]. intros _.
    destruct (proj1 (calculate_average_hours_per_week_step_inv d r) _ Hstep).
    done.
Qed.

End AverageFacts.

Lemma for_each_Err_inv {A S} (body : S → A → result S) (xs : list A)
    (s0 : S) (e : exn) :
  for_each body xs s0 = Err e → ∃ s x, x ∈ xs ∧ body s x = Err e.
Proof.
  revert s0. induction xs as [|y xs IH]; intros s0; [done|].
  rewrite for_each_cons. destruct (body s0 y) as [s1|e'] eqn:Hy.
  - rewrite result_bind_Ok. intros (s & x & Hx & Hs)%IH.
    exists s, x. split; [by right|done].
  - intros [= ->]. exists s0, y. split; [by left|done].
Qed.

(** X12. [calculate_average_hours_per_week] returns exactly when there is at
    least one row and every row has a date that [strptime] accepts and, if
    both times are present, two times that it accepts; a row with only one
    time present is accepted and counts no hours.  Otherwise it raises:
    [ZeroDivisionError] for no rows and [ValueError] in every other case. *)
Theorem calculate_average_hours_per_week_returns_iff_computable :
  ∀ {F : Type} `{Number F} (attendance_data : list AttendanceRecord),
    (is_Ok (calculate_average_hours_per_week (F := F) attendance_data)
     ↔ attendance_data ≠ [] ∧ Forall computable attendance_data)
    ∧ (∀ e, calculate_average_hours_per_week (F := F) attendance_data = Err e →
            (attendance_data = [] ∧ e = ZeroDivisionError)
            ∨ (attendance_data ≠ [] ∧ e = ValueError)).
Proof.
  intros F N rows. unfold calculate_average_hours_per_week. split; [split|].
  - intros [avg Hrun].
    destruct (for_each calculate_average_hours_per_week_step rows [])
      as [d|] eqn:Hd; [|done].
    rewrite result_bind_Ok in Hrun. split.
    + intros ->. injection Hd as <-. done.
    + apply Forall_forall. intros r Hr.
      destruct (for_each_Ok_inv _ _ _ _ Hd r Hr) as (d1 & d2 & Hstep).
      by destruct (proj1 (calculate_average_hours_per_week_step_inv d1 r)
                     _ Hstep).
  - intros [Hne Hrows].
    destruct (calculate_average_hours_per_week_loop_Ok (F := F) rows Hrows)
      as (d & -> & Hd).
    rewrite result_bind_Ok. rewrite decide_False; [by eexists|].
    intros Hlen. apply Hd; [done|]. by destruct d.
  - intros e.
    destruct (for_each calculate_average_hours_per_week_step rows [])
      as [d|e'] eqn:Hd.
    + rewrite result_bind_Ok.
      destruct (decide (length d = 0%nat)) as [Hlen|_]; [|done].
      intros [= <-]. destruct rows as [|r rows]; [by left|]. exfalso.
      destruct (for_each_Ok_inv _ _ _ _ Hd r) as (d1 & d2 & Hstep); [by left|].
      rewrite for_each_cons in Hd.
      destruct (calculate_average_hours_per_week_step [] r) as [d3|] eqn:H3;
        [|done].
      rewrite result_bind_Ok in Hd.
      destruct (proj1 (calculate_average_hours_per_week_step_inv [] r) _ H3)
        as [_ Hne].
      assert (∀ (rs : list AttendanceRecord) (a b : week_dict (F := F)),
                a ≠ [] →
                for_each calculate_average_hours_per_week_step rs a = Ok b →
                b ≠ []) as Hkeep.
      { clear. induction rs as [|r rs IH]; intros a b Ha.
        - by intros [= <-].
        - rewrite for_each_cons.
          destruct (calculate_average_hours_per_week_step a r) as [a'|] eqn:Hr;
            [|done].
          rewrite result_bind_Ok. apply IH.
          by destruct (proj1 (calculate_average_hours_per_week_step_inv a r)
                         _ Hr). }
      apply (Hkeep _ _ _ Hne) in Hd. by destruct d.
    + intros [= <-]. right.
      apply for_each_Err_inv in Hd as (d1 & r & Hr & Hstep).
      split; [by destruct rows; [apply elem_of_nil in Hr|]|].
      by apply (proj2 (calculate_average_hours_per_week_step_inv d1 r)).
Qed.

Lemma calculate_average_hours_per_week_returns_iff_computable_witness :
  is_Ok (calculate_average_hours_per_week (F := Q)
           [ row 1 "2023-06-06" None (Some "17:00:00") ]%string).
Proof.
  apply (proj1 (calculate_average_hours_per_week_returns_iff_computable
                  (F := Q) _)).
  split; [discriminate|]. apply Forall_singleton.
  split; [by eexists|]. intros ci co [=].
Defined.

Section ExactAverage.
Context {F : Type} `{ExactAddition F}.

Lemma py_sum_Permutation (l1 l2 : list F) :
  l1 ≡ₚ l2 → py_sum l1 = py_sum l2.
Proof.
  unfold py_sum. generalize (num_zero (F := F)).
  intros a Hperm. revert a.
  induction Hperm as [|x l1 l2 _ IH|x y l|l1 l2 l3 _ IH1 _ IH2]; intros a; simpl.
  - done.
  - apply IH.
  - f_equal. rewrite <- !num_add_assoc. f_equal. apply num_add_comm.
  - by rewrite IH1.
Qed.

Lemma average_formula (rows : list AttendanceRecord) :
  rows ≠ [] → Forall computable rows →
  calculate_average_hours_per_week rows
  = Ok (num_div (py_sum (hours_worked <$> rows))
          (num_of_int (Z.of_nat (length (remove_dups (week_of <$> rows)))))).
Proof.
  intros Hne Hrows.
  destruct (calculate_average_hours_per_week_loop rows Hrows)
    as (d & Hd & Hnd & Hkeys & Hsum).
  unfold calculate_average_hours_per_week. rewrite Hd, result_bind_Ok.
  assert (length d = length (remove_dups (week_of <$> rows))) as Hlen.
  { rewrite <- (length_fmap fst d). apply Permutation_length.
    apply NoDup_Permutation; [done|apply NoDup_remove_dups|].
    intros k. by rewrite Hkeys, elem_of_remove_dups. }
  rewrite decide_False.
  - cbv zeta. by rewrite Hsum, Hlen.
  - intros Hzero. destruct rows as [|r rows]; [done|].
    assert (week_of r ∈ d.*1) as Hin by (apply Hkeys; left).
    destruct d; [by apply elem_of_nil in Hin|done].
Qed.

End ExactAverage.

(** X13. In exact arithmetic the average does not depend on the order of the
    attendance rows: [calculate_average_hours_per_week] returns the same
    value on any rearrangement of a list of rows it accepts. *)
Theorem calculate_average_hours_per_week_order_independent :
  ∀ {F : Type} `{ExactAddition F} (rows rows' : list AttendanceRecord),
    Forall computable rows →
    rows ≡ₚ rows' →
    calculate_average_hours_per_week (F := F) rows
    = calculate_average_hours_per_week rows'.
Proof.
  intros F N E rows rows' Hrows Hperm.
  destruct rows as [|r rows].
  { apply Permutation_nil_l in Hperm. by subst. }
  assert (rows' ≠ []) as Hne'.
  { intros ->. by apply Permutation_nil_r in Hperm. }
  assert (Forall computable rows') as Hrows' by (by rewrite <- Hperm).
  rewrite !average_formula by done.
  do 2 f_equal.
  - apply py_sum_Permutation. by rewrite Hperm.
  - do 2 f_equal. apply Permutation_length.
    apply NoDup_Permutation; [apply NoDup_remove_dups..|].
    intros k. rewrite !elem_of_remove_dups. by rewrite Hperm.
Qed.

Lemma calculate_average_hours_per_week_order_independent_witness :
  calculate_average_hours_per_week (F := Q)
    [ row 1 "2023-06-05" (Some "09:00:00") (Some "17:00:00");
      row 1 "2023-06-12" None None ]%string
  = calculate_average_hours_per_week
      [ row 1 "2023-06-12" None None;
        row 1 "2023-06-05" (Some "09:00:00") (Some "17:00:00") ]%string.
Proof.
  apply (calculate_average_hours_per_week_order_independent (F := Q)).
  - apply Forall_cons. split.
    + split; [by eexists|]. intros ci co [= <-] [= <-]. split; by eexists.
    + apply Forall_singleton. split; [by eexists|]. intros ci co [=].
  - apply Permutation_swap.
Defined.

(** ** [identify_delinquent_employees], continued *)

Section RunFacts.
Context `{SetOrder string} `{SetOrder (string * string)}.
Context {F : Type} `{Number F}.

Lemma findings_unbound weather_data events_data attendance_data employee :
  weather_data = None ∨ events_data = None →
  is_Err (findings (F := F) weather_data events_data attendance_data employee)
  ∧ (∀ rows poor,
       get_employee_attendance_data (record_id employee) attendance_data 2023
       = Ok rows →
       check_employee_times rows = Ok poor →
       findings (F := F) weather_data events_data attendance_data employee
       = Err UnboundLocalError).
Proof.
  intros Hnone. unfold findings. split.
  - destruct (get_employee_attendance_data _ _ _) as [rows|]; [|by eexists].
    rewrite result_bind_Ok.
    destruct (check_employee_times rows) as [poor|]; [|by eexists].
    rewrite result_bind_Ok.
    destruct Hnone as [-> | ->]; [by eexists|].
    destruct (local weather_data); by eexists.
  - intros rows poor Hrows Hpoor.
    rewrite Hrows, result_bind_Ok, Hpoor, result_bind_Ok.
    destruct Hnone as [-> | ->]; [done|]. by destruct weather_data.
Qed.

Lemma identify_delinquent_employees_step_selects
    weather_data events_data attendance_data acc emp acc' :
  identify_delinquent_employees_step (F := F) weather_data events_data
    attendance_data acc emp = Ok acc' →
  acc' = acc
  ∨ ∃ r, acc' = acc ++ [r]
         ∧ employee r = emp
         ∧ (3 < length (events r))%nat
         ∧ ∃ rows poor weather events_list,
             get_employee_attendance_data (record_id emp)
               attendance_data 2023 = Ok rows
             ∧ check_employee_times rows = Ok poor
             ∧ weather_data = Some weather ∧ events_data = Some events_list
             ∧ check_dates_against_events weather events_list poor
                 (emp_country emp) = Ok (events r)
             ∧ calculate_average_hours_per_week rows
               = Ok (average_hours_per_week r).
Proof.
  unfold identify_delinquent_employees_step.
  destruct (get_employee_attendance_data _ _ _) as [rows|] eqn:Hrows; [|done].
  rewrite result_bind_Ok.
  destruct (check_employee_times rows) as [poor|] eqn:Hpoor; [|done].
  rewrite result_bind_Ok.
  destruct weather_data as [weather|]; [|done]. simpl local.
  rewrite result_bind_Ok.
  destruct events_data as [events_list|]; [|done]. simpl local.
  rewrite result_bind_Ok.
  destruct (check_dates_against_events _ _ _ _) as [evs|] eqn:Hevs; [|done].
  rewrite result_bind_Ok.
  destruct (calculate_average_hours_per_week rows) as [avg|] eqn:Havg; [|done].
  rewrite result_bind_Ok.
  destruct (decide (3 < length evs)%nat) as [Hlen|_]; intros [= <-];
    [|by left].
  right. eexists. split; [done|]. simpl. split; [done|]. split; [done|].
  by exists rows, poor, weather, events_list.
Qed.

End RunFacts.

(** X14. A failed request leaves [weather_data] or [events_data] unbound.
    [identify_delinquent_employees] then still returns the empty list for an
    empty roster, and raises for every roster that is not empty: with
    [UnboundLocalError] as soon as the attendance of the first employee has
    been selected and classified. *)
Theorem identify_delinquent_employees_after_failed_request :
  ∀ `{SetOrder string} `{SetOrder (string * string)} {F : Type} `{Number F}
    (weather_data : option (list WeatherRecord))
    (events_data : option (list EventRecord))
    (attendance_data : list AttendanceRecord),
    identify_delinquent_employees (F := F) weather_data events_data []
      attendance_data = Ok []
    ∧ (weather_data = None ∨ events_data = None →
       ∀ employee others,
         is_Err (identify_delinquent_employees (F := F) weather_data
                   events_data (employee :: others) attendance_data)
         ∧ (∀ rows poor,
              get_employee_attendance_data (record_id employee)
                attendance_data 2023 = Ok rows →
              check_employee_times rows = Ok poor →
              identify_delinquent_employees (F := F) weather_data events_data
                (employee :: others) attendance_data
              = Err UnboundLocalError)).
Proof.
  intros O1 O2 F N weather_data events_data attendance_data.
  split; [done|]. intros Hnone employee others.
  destruct (findings_unbound (F := F) weather_data events_data attendance_data
              employee Hnone) as [[e He] Hunbound].
  unfold identify_delinquent_employees. rewrite for_each_cons.
  rewrite identify_delinquent_employees_step_findings. split.
  - rewrite He. by exists e.
  - intros rows poor Hrows Hpoor. by rewrite (Hunbound rows poor).
Qed.

Lemma identify_delinquent_employees_step_reports
    `{SetOrder string} `{SetOrder (string * string)} {F} `{Number F}
    weather_data events_data attendance_data (acc : list (Report F))
    employee acc' :
  identify_delinquent_employees_step weather_data events_data attendance_data
    acc employee = Ok acc' →
  acc' = acc
  ∨ ∃ r, acc' = acc ++ [r] ∧ report_for events_data attendance_data r employee.
Proof.
  intros [->|(r & -> & Hemp & Hlen & rows & poor & weather & events_list
              & Hrows & Hpoor & _ & Hev & Hevs & _)]
    %identify_delinquent_employees_step_selects; [by left|].
  right. exists r. split; [done|].
  destruct (check_dates_against_events_explained _ _ _ _ _ Hevs) as [Hnd Hall].
  split; [done|]. split; [done|]. split; [done|].
  by exists events_list, rows, poor.
Qed.

(** X15. When [identify_delinquent_employees] returns, the employees it
    reports are a subsequence of the roster, and every report holds more than
    three events, of pairwise distinct dates, all in the country of its
    employee, each being an event of that country in 2023 within a day of a
    delinquent date of the employee. *)
Theorem identify_delinquent_employees_reports :
  ∀ `{SetOrder string} `{SetOrder (string * string)} {F : Type} `{Number F}
    (weather_data : option (list WeatherRecord))
    (events_data : option (list EventRecord))
    (employee_data : list Employee) (attendance_data : list AttendanceRecord)
    (wayward_employees : list (Report F)),
    identify_delinquent_employees weather_data events_data employee_data
      attendance_data = Ok wayward_employees →
    (employee <$> wayward_employees) `sublist_of` employee_data
    ∧ (length wayward_employees <= length employee_data)%nat
    ∧ ∀ r, r ∈ wayward_employees →
           report_for events_data attendance_data r (employee r).
Proof.
  intros O1 O2 F N weather_data events_data employee_data attendance_data
    reports Hrun.
  destruct (for_each_selects (report_for events_data attendance_data) _ _ _ _
              (identify_delinquent_employees_step_reports
                 weather_data events_data attendance_data) Hrun)
    as (l & emps & -> & Hsub & Hgood).
  simpl.
  assert (employee <$> l = emps) as Hemps.
  { clear -Hgood. induction Hgood as [|r emp l emps [Hr _] _ IH]; [done|].
    by rewrite fmap_cons, Hr, IH. }
  split; [by rewrite Hemps|]. split.
  - rewrite <- (length_fmap employee), Hemps. by apply sublist_length.
  - intros r Hr. clear -Hgood Hr.
    induction Hgood as [|r' emp l emps Hr' _ IH]; [by apply elem_of_nil in Hr|].
    apply elem_of_cons in Hr as [->|Hr]; [|by apply IH].
    pose proof Hr' as [<- _]. done.
Qed.

(** X16. Nothing in [identify_delinquent_employees] catches an exception:
    when the computation for one employee of the roster raises, the run
    raises and returns no report, also for the employees before that one. *)
Theorem identify_delinquent_employees_stops_at_first_exception :
  ∀ `{SetOrder string} `{SetOrder (string * string)} {F : Type} `{Number F}
    (weather_data : option (list WeatherRecord))
    (events_data : option (list EventRecord))
    (employee_data : list Employee) (attendance_data : list AttendanceRecord)
    (employee : Employee),
    employee ∈ employee_data →
    is_Err (findings (F := F) weather_data events_data attendance_data
              employee) →
    is_Err (identify_delinquent_employees (F := F) weather_data events_data
              employee_data attendance_data).
Proof.
  intros O1 O2 F N weather_data events_data employee_data attendance_data
    employee Hin [e He].
  eapply for_each_raises; [done|]. intros acc.
  rewrite identify_delinquent_employees_step_findings, He. by exists e.
Qed.

(** ** [AttendanceReport_alternate.py], continued *)

Lemma column_Ok_inv {A B} (f : A → result B) (l : list A) (ys : list B) :
  Alternate.column f l = Ok ys → Forall2 (λ x y, f x = Ok y) l ys.
Proof.
  revert ys. induction l as [|x l IH]; intros ys; simpl.
  - intros [= <-]. constructor.
  - destruct (f x) as [y|] eqn:Hx; [|done]. rewrite result_bind_Ok.
    destruct (Alternate.column f l) as [ys'|]; [|done].
    rewrite result_bind_Ok. intros [= <-]. constructor; [done|by apply IH].
Qed.

Lemma column_Ok {A B} (f : A → result B) (g : A → B) (l : list A) :
  (∀ x, x ∈ l → f x = Ok (g x)) → Alternate.column f l = Ok (g <$> l).
Proof.
  induction l as [|x l IH]; intros Hf; simpl; [done|].
  rewrite Hf by left. rewrite result_bind_Ok, IH; [done|].
  intros y Hy. apply Hf. by right.
Qed.

Lemma column_raises {A B} (f : A → result B) (l : list A) x :
  x ∈ l → is_Err (f x) → is_Err (Alternate.column f l).
Proof.
  induction l as [|y l IH]; intros Hx Herr; [by apply elem_of_nil in Hx|].
  simpl. apply elem_of_cons in Hx as [->|Hx].
  - destruct Herr as [e ->]. by exists e.
  - destruct (f y); [|by eexists]. rewrite result_bind_Ok.
    destruct (IH Hx Herr) as [e ->]. by exists e.
Qed.

Lemma column_Err_inv {A B} (f : A → result B) (l : list A) e :
  Alternate.column f l = Err e → ∃ x, x ∈ l ∧ f x = Err e.
Proof.
  induction l as [|x l IH]; [done|]. simpl.
  destruct (f x) as [y|e'] eqn:Hx.
  - rewrite result_bind_Ok.
    destruct (Alternate.column f l) as [ys|e'']; [done|].
    intros [= ->]. destruct IH as (x' & Hx' & Hf); [done|].
    exists x'. split; [by right|done].
  - intros [= ->]. exists x. split; [left|done].
Qed.

Lemma to_time_spec cell :
  (cell_readable cell ∧ Alternate.to_time cell = Ok (cell_time cell))
  ∨ (¬ cell_readable cell ∧ Alternate.to_time cell = Err ValueError).
Proof.
  unfold cell_readable, cell_missing, cell_time.
  destruct cell as [s|]; simpl; [|left; split; [left; by intros s [=]|done]].
  destruct (decide (Alternate.is_missing s)) as [Hs|Hs].
  - left. split; [left; by intros ? [= <-]|done].
  - destruct (Alternate.read_time s) as [t|] eqn:Ht.
    + left. split; [right; by eexists|done].
    + right. split; [|done]. intros [Hmiss|[t Ht']]; [|done].
      apply Hs, Hmiss. done.
Qed.

Lemma cell_time_None cell :
  cell_readable cell → (cell_time cell = None ↔ cell_missing cell).
Proof.
  unfold cell_readable, cell_missing, cell_time.
  destruct cell as [s|]; simpl; [|by split; [intros _ s [=]|]].
  destruct (decide (Alternate.is_missing s)) as [Hs|Hs].
  - intros _. split; [by intros _ ? [= <-]|done].
  - intros [Hmiss|[t Ht]]; [destruct Hs; by apply Hmiss|].
    rewrite Ht. split; [done|]. intros Hmiss. destruct Hs. by apply Hmiss.
Qed.

Lemma column_to_time {A} (cell : A → option string) (l : list A) :
  (Forall (λ x, cell_readable (cell x)) l
   ∧ Alternate.column (λ x, Alternate.to_time (cell x)) l
     = Ok ((λ x, cell_time (cell x)) <$> l))
  ∨ (¬ Forall (λ x, cell_readable (cell x)) l
     ∧ Alternate.column (λ x, Alternate.to_time (cell x)) l = Err ValueError).
Proof.
  induction l as [|x l IH]; [left; by split|]. simpl.
  destruct (to_time_spec (cell x)) as [[Hx ->]|[Hx ->]].
  - rewrite result_bind_Ok. destruct IH as [[Hl ->]|[Hl ->]].
    + left. split; [by constructor|done].
    + right. split; [|done]. by intros [_ ?]%Forall_cons.
  - right. split; [|done]. by intros [? _]%Forall_cons.
Qed.

Lemma only_NaT_cell_time {A} (cell : A → option string) (l : list A) :
  Forall (λ x, cell_readable (cell x)) l →
  Alternate.only_NaT ((λ x, cell_time (cell x)) <$> l)
  ↔ l ≠ [] ∧ Forall (λ x, cell_missing (cell x)) l.
Proof.
  intros Hl. unfold Alternate.only_NaT. rewrite Forall_fmap.
  assert (Forall (λ x, cell_missing (cell x)) l
          ↔ Forall ((λ c, c = None) ∘ (λ x, cell_time (cell x))) l) as ->.
  { rewrite !Forall_forall. rewrite Forall_forall in Hl.
    split; intros Hall x Hx; apply (cell_time_None _ (Hl x Hx)), Hall, Hx. }
  split; intros [Hne ?]; (split; [|done]); by destruct l.
Qed.

Lemma zip_with_fmap_timed (df : list Alternate.AttendanceRow) :
  zip_with (λ r '(ci, co),
              {| Alternate.t_employee_record_id :=
                   Alternate.row_employee_record_id r;
                 Alternate.t_date := Alternate.row_date r;
                 Alternate.t_clock_in := ci; Alternate.t_clock_out := co |})
    df (zip ((λ r, cell_time (Alternate.row_clock_in r)) <$> df)
          ((λ r, cell_time (Alternate.row_clock_out r)) <$> df))
  = timed_of <$> df.
Proof. induction df as [|r df IH]; [done|]. csimpl. by rewrite IH. Qed.

(** X17. The tabular [check_employee_times] raises [ValueError] when a
    time that is present is not accepted by the format, and [TypeError] when
    the frame has rows and none of them has a clock-in, or none a clock-out.
    In every other case it returns: it leaves one row per row of the frame,
    and every row with a missing time is in the frame it returns, also a row
    with only one of its times missing, on which the other
    [check_employee_times] raises. *)
Theorem alternate_check_employee_times_missing_times :
  ∀ df : list Alternate.AttendanceRow,
    (¬ Forall times_readable df →
     Alternate.check_employee_times df = Err ValueError)
    ∧ (Forall times_readable df → column_missing df →
       Alternate.check_employee_times df = Err TypeError)
    ∧ (Forall times_readable df → ¬ column_missing df →
       ∃ poor,
         Alternate.check_employee_times df = Ok (poor, timed_of <$> df)
         ∧ ∀ r, r ∈ df → time_missing r → timed_of r ∈ poor).
Proof.
  intros df. unfold Alternate.check_employee_times.
  destruct (column_to_time Alternate.row_clock_in df) as [[Hci ->]|[Hci ->]].
  2:{ split; [done|]. split; intros Hall; destruct Hci;
        apply (Forall_impl _ _ _ Hall); by intros r [? _]. }
  rewrite result_bind_Ok.
  destruct (column_to_time Alternate.row_clock_out df) as [[Hco ->]|[Hco ->]].
  2:{ split; [done|]. split; intros Hall; destruct Hco;
        apply (Forall_impl _ _ _ Hall); by intros r [_ ?]. }
  rewrite result_bind_Ok.
  assert (Forall times_readable df) as Hall.
  { rewrite Forall_forall in Hci, Hco. apply Forall_forall. intros r Hr.
    split; [by apply Hci|by apply Hco]. }
  assert (Alternate.only_NaT
            ((λ r, cell_time (Alternate.row_clock_in r)) <$> df)
          ∨ Alternate.only_NaT
              ((λ r, cell_time (Alternate.row_clock_out r)) <$> df)
          ↔ column_missing df) as Hmiss.
  { rewrite !only_NaT_cell_time by done. unfold column_missing. tauto. }
  split; [done|]. split; intros _ Hcol.
  - rewrite decide_True; [done|by apply Hmiss].
  - rewrite decide_False by (by rewrite Hmiss).
    cbv zeta. rewrite zip_with_fmap_timed. eexists. split; [done|].
    intros r Hr Hr_miss. apply elem_of_app. right. apply list_elem_of_filter.
    split; [|by apply list_elem_of_fmap_2].
    rewrite Forall_forall in Hci, Hco. simpl.
    destruct Hr_miss as [?|?];
      [left; by apply cell_time_None; [apply Hci|]
      |right; by apply cell_time_None; [apply Hco|]].
Qed.

Lemma alternate_check_employee_times_missing_times_witness :
  ∃ poor,
    Alternate.check_employee_times
      [ {| Alternate.row_employee_record_id := 1;
           Alternate.row_date := Py.mk_date 2023 6 6;
           Alternate.row_clock_in := None;
           Alternate.row_clock_out := Some "17:00:00"%string |};
        {| Alternate.row_employee_record_id := 1;
           Alternate.row_date := Py.mk_date 2023 6 7;
           Alternate.row_clock_in := Some "08:00:60"%string;
           Alternate.row_clock_out := None |} ]
    = Ok (poor,
          [ {| Alternate.t_employee_record_id := 1;
               Alternate.t_date := Py.mk_date 2023 6 6;
               Alternate.t_clock_in := None;
               Alternate.t_clock_out := Some (Py.mk_time 17 0 0) |};
            {| Alternate.t_employee_record_id := 1;
               Alternate.t_date := Py.mk_date 2023 6 7;
               Alternate.t_clock_in := Some (Py.mk_time 8 1 0);
               Alternate.t_clock_out := None |} ]).
Proof.
  destruct (proj2 (proj2 (alternate_check_employee_times_missing_times
              [ {| Alternate.row_employee_record_id := 1;
                   Alternate.row_date := Py.mk_date 2023 6 6;
                   Alternate.row_clock_in := None;
                   Alternate.row_clock_out := Some "17:00:00"%string |};
                {| Alternate.row_employee_record_id := 1;
                   Alternate.row_date := Py.mk_date 2023 6 7;
                   Alternate.row_clock_in := Some "08:00:60"%string;
                   Alternate.row_clock_out := None |} ])))
    as (poor & Hrun & _).
  - apply Forall_cons. split; [|apply Forall_singleton]; split.
    + left. by intros s [=].
    + right. eexists. vm_compute. reflexivity.
    + right. eexists. vm_compute. reflexivity.
    + left. by intros s [=].
  - intros [_ [Hin|Hout]].
    + apply Forall_cons in Hin as [_ Hin]. apply Forall_inv in Hin.
      destruct (Hin _ eq_refl) as [?|Hin']; [done|].
      repeat (apply elem_of_cons in Hin' as [?|Hin']; [done|]).
      by apply elem_of_nil in Hin'.
    + apply Forall_inv in Hout.
      destruct (Hout _ eq_refl) as [?|Hout']; [done|].
      repeat (apply elem_of_cons in Hout' as [?|Hout']; [done|]).
      by apply elem_of_nil in Hout'.
  - exists poor. rewrite Hrun. vm_compute. reflexivity.
Defined.

Lemma common_dates_of_nil attendance_df filtered_weather_df :
  Alternate.common_dates_of attendance_df filtered_weather_df = [].
Proof.
  unfold Alternate.common_dates_of. apply elem_of_nil_inv.
  intros v [Hstr Hts]%list_elem_of_filter.
  apply list_elem_of_fmap in Hstr as (w & -> & _).
  apply list_elem_of_fmap in Hts as (r & [=] & _).
Qed.

(** X18. In the tabular [check_dates_against_events] the dates of the
    attendance frame are timestamps and the dates of the weather frame are
    the strings of the JSON document, so the two sets it intersects have no
    common element: no delinquent date is removed, and the events returned are
    the same for any two weather data sets that are not empty. *)
Theorem alternate_weather_excludes_nothing :
  ∀ (weather_df other_weather_df : list WeatherRecord)
    (events_df : list EventRecord) (attendance_df : list Alternate.TimedRow)
    (country : string),
    weather_df ≠ [] → other_weather_df ≠ [] →
    Alternate.check_dates_against_events weather_df events_df attendance_df
      country
    = Alternate.check_dates_against_events other_weather_df events_df
        attendance_df country.
Proof.
  intros w1 w2 events_df attendance_df country H1 H2.
  unfold Alternate.check_dates_against_events.
  destruct w1 as [|a w1]; [done|]. destruct w2 as [|b w2]; [done|].
  simpl Alternate.frame. rewrite !result_bind_Ok. cbv zeta.
  by rewrite !common_dates_of_nil.
Qed.

Lemma alternate_weather_excludes_nothing_witness :
  Alternate.check_dates_against_events sample_weather four_events
    [ timed_of {| Alternate.row_employee_record_id := 1;
                  Alternate.row_date := Py.mk_date 2023 7 3;
                  Alternate.row_clock_in := None;
                  Alternate.row_clock_out := None |} ] "US"
  = Alternate.check_dates_against_events mild_weather four_events
      [ timed_of {| Alternate.row_employee_record_id := 1;
                    Alternate.row_date := Py.mk_date 2023 7 3;
                    Alternate.row_clock_in := None;
                    Alternate.row_clock_out := None |} ] "US".
Proof.
  apply alternate_weather_excludes_nothing; discriminate.
Defined.

Section ExactGroups.
Context {F : Type} `{ExactAddition F}.

Lemma py_sum_cons (x : F) (l : list F) :
  py_sum (x :: l) = num_add x (py_sum l).
Proof.
  unfold py_sum. simpl. rewrite foldl_add_shift. apply num_add_comm.
Qed.

Lemma py_sum_app (l1 l2 : list F) :
  py_sum (l1 ++ l2) = num_add (py_sum l1) (py_sum l2).
Proof.
  induction l1 as [|x l1 IH].
  - simpl. unfold py_sum at 2. simpl. by rewrite num_add_zero_l.
  - rewrite <- app_comm_cons, !py_sum_cons, IH. apply num_add_assoc.
Qed.

(** Summing per group and then over the groups is summing over the rows. *)
Lemma py_sum_by_groups {A} (key : A → Z) (value : A → F) (ws : list Z)
    (rows : list A) :
  NoDup ws →
  (∀ r, r ∈ rows → key r ∈ ws) →
  py_sum ((λ w, py_sum (value <$> filter (λ r, key r = w) rows)) <$> ws)
  = py_sum (value <$> rows).
Proof.
  revert rows. induction ws as [|w ws IH]; intros rows Hnd Hkeys.
  - destruct rows as [|r rows]; [done|]. exfalso.
    apply (elem_of_nil (key r)), Hkeys. by left.
  - apply NoDup_cons in Hnd as [Hw Hnd].
    rewrite fmap_cons, py_sum_cons.
    rewrite <- (py_sum_Permutation
                  (value <$> (filter (λ r, key r = w) rows
                              ++ filter (λ r, ¬ key r = w) rows))
                  (value <$> rows))
      by (by rewrite filter_app_complement).
    rewrite fmap_app, py_sum_app. f_equal.
    rewrite <- (IH (filter (λ r, ¬ key r = w) rows)); [|done|].
    + f_equal. apply list_fmap_ext. intros i v Hv.
      apply list_elem_of_lookup_2 in Hv.
      do 2 f_equal. rewrite list_filter_filter. apply list_filter_iff.
      intros r. split; [|tauto]. intros Hr. split; [done|].
      intros Heq. apply Hw. congruence.
    + intros r [Hne Hr]%list_elem_of_filter.
      pose proof (Hkeys r Hr) as Hk.
      apply elem_of_cons in Hk as [?|?]; done.
Qed.

Lemma alternate_average_formula (attendance_df : list Alternate.TimedRow) :
  attendance_df ≠ [] →
  Alternate.calculate_average_hours_per_week attendance_df
  = Some (num_div (py_sum (Alternate.duration <$> attendance_df))
            (num_of_int
               (Z.of_nat
                  (length (remove_dups
                             ((λ r, Py.iso_week (Alternate.t_date r))
                                <$> attendance_df)))))).
Proof.
  intros Hne. unfold Alternate.calculate_average_hours_per_week. cbv zeta.
  set (week_number := λ r, Py.iso_week (Alternate.t_date r)).
  set (weeks := merge_sort Z.le (remove_dups (week_number <$> attendance_df))).
  assert (weeks ≡ₚ remove_dups (week_number <$> attendance_df)) as Hperm
    by apply merge_sort_Permutation.
  assert (NoDup weeks) as Hnd by (rewrite Hperm; apply NoDup_remove_dups).
  assert (∀ r, r ∈ attendance_df → week_number r ∈ weeks) as Hkeys.
  { intros r Hr. rewrite Hperm, elem_of_remove_dups.
    by apply list_elem_of_fmap_2. }
  rewrite length_fmap, (Permutation_length Hperm).
  rewrite (py_sum_by_groups week_number Alternate.duration weeks attendance_df)
    by done.
  destruct weeks as [|w ws] eqn:Hweeks; [|done].
  destruct attendance_df as [|r rows]; [done|]. exfalso.
  apply (elem_of_nil (week_number r)), Hkeys. by left.
Qed.

End ExactGroups.

(** X19. The tabular [calculate_average_hours_per_week] returns [NaN] on a
    frame without rows, where the other one divides by zero.  On a frame with
    rows, in exact arithmetic, it returns the sum of the hours of the rows
    divided by the number of distinct ISO week numbers, the hours of a row
    being the time from clock-in to clock-out when both are present and zero
    otherwise. *)
Theorem alternate_calculate_average_hours_per_week_total_over_weeks :
  ∀ {F : Type} `{ExactAddition F} (attendance_df : list Alternate.TimedRow),
    Alternate.calculate_average_hours_per_week (F := F) [] = None
    ∧ (attendance_df ≠ [] →
       Alternate.calculate_average_hours_per_week attendance_df
       = Some (num_div (py_sum (Alternate.duration <$> attendance_df))
                 (num_of_int
                    (Z.of_nat
                       (length (remove_dups
                                  ((λ r, Py.iso_week (Alternate.t_date r))
                                     <$> attendance_df))))))).
Proof.
  intros F N E attendance_df. split; [done|]. apply alternate_average_formula.
Qed.

Lemma alternate_calculate_average_hours_per_week_total_over_weeks_witness :
  ∃ q : Q,
    Alternate.calculate_average_hours_per_week
      [ {| Alternate.t_employee_record_id := 1;
           Alternate.t_date := Py.mk_date 2023 6 5;
           Alternate.t_clock_in := Some (Py.mk_time 9 0 0);
           Alternate.t_clock_out := Some (Py.mk_time 17 0 0) |} ]
    = Some q.
Proof.
  eexists.
  apply (proj2 (alternate_calculate_average_hours_per_week_total_over_weeks
                  (F := Q) _)).
  discriminate.
Defined.

(** X20. For an employee without attendance rows in the year,
    [analyze_data] reports nothing and goes on to the next employee, provided
    the weather and events data are there and the event dates are readable:
    the empty frame has no delinquent date, no event and the average [NaN]. *)
Theorem analyze_data_skips_employee_without_rows :
  ∀ {F : Type} `{Number F} (attendance_df : list AttendanceRecord)
    (weather_df : list WeatherRecord) (events_df : list EventRecord)
    (wayward_employees : list (Report (option F))) (employee : Employee),
    Alternate.get_employee_attendance_data attendance_df (record_id employee)
      2023 = Ok [] →
    weather_df ≠ [] → events_df ≠ [] →
    (∀ e, e ∈ events_df → is_Some (Py.parse_date (ev_event_date e))) →
    Alternate.analyze_data_step attendance_df (Some weather_df)
      (Some events_df) wayward_employees employee
    = Ok wayward_employees.
Proof.
  intros F N attendance_df weather_df events_df acc employee Hrows Hw He Hdates.
  unfold Alternate.analyze_data_step. cbv zeta.
  rewrite Hrows, result_bind_Ok.
  change (Alternate.check_employee_times [])
    with (Ok ([], []) : result (list Alternate.TimedRow * list Alternate.TimedRow)).
  rewrite result_bind_Ok. simpl local. rewrite !result_bind_Ok.
  unfold Alternate.check_dates_against_events.
  destruct weather_df as [|w ws]; [done|]. destruct events_df as [|e es]; [done|].
  simpl Alternate.frame. rewrite !result_bind_Ok.
  rewrite (column_Ok
             (λ e0, d ← Alternate.to_datetime (ev_event_date e0); Ok (e0, d))
             (λ e0, (e0, default (Py.mk_date 1 1 1)
                           (Py.parse_date (ev_event_date e0))))).
  - rewrite result_bind_Ok. cbv zeta. rewrite result_bind_Ok. done.
  - intros e' He'. destruct (Hdates e' He') as [d Hd].
    unfold Alternate.to_datetime, Py.strptime. by rewrite Hd.
Qed.

(** X21. [analyze_data] cannot run on an empty data set: for a roster that
    is not empty it raises [KeyError] when the attendance list is empty, and
    it raises when the weather or events list is empty or was left unbound by
    a failed request. *)
Theorem analyze_data_needs_data :
  ∀ {F : Type} `{Number F} (attendance_df : list AttendanceRecord)
    (weather_df : option (list WeatherRecord))
    (events_df : option (list EventRecord))
    (employee : Employee) (others : list Employee),
    (attendance_df = [] →
     Alternate.analyze_data (F := F) (employee :: others) attendance_df
       weather_df events_df = Err KeyError)
    ∧ (weather_df = None ∨ weather_df = Some []
       ∨ events_df = None ∨ events_df = Some [] →
       is_Err (Alternate.analyze_data (F := F) (employee :: others)
                 attendance_df weather_df events_df)).
Proof.
  intros F N attendance_df weather_df events_df employee others.
  unfold Alternate.analyze_data. rewrite for_each_cons. split.
  - intros ->. done.
  - intros Hbad.
    assert (is_Err (Alternate.analyze_data_step (F := F) attendance_df
                      weather_df events_df [] employee)) as [e ->];
      [|by exists e].
    unfold Alternate.analyze_data_step. cbv zeta.
    destruct (Alternate.get_employee_attendance_data attendance_df
                (record_id employee) 2023) as [rows|]; [|by eexists].
    rewrite result_bind_Ok.
    destruct (Alternate.check_employee_times rows) as [[poor timed]|];
      [|by eexists].
    rewrite result_bind_Ok.
    destruct weather_df as [[|w ws]|], events_df as [[|e es]|]; simpl local;
      rewrite ?result_bind_Ok; try (by eexists).
    destruct Hbad as [?|[?|[?|?]]]; done.
Qed.

(** ** ISO week numbers *)

Lemma parse_date_valid s d : Py.parse_date s = Some d → valid_date d.
Proof.
  unfold Py.parse_date, valid_date. intros Hparse.
  destruct (Py.read_4 (Py.chars s)) as [[y l]|]; simpl in Hparse; [|done].
  destruct (Py.expect "-" l) as [l1|]; simpl in Hparse; [|done].
  destruct (Py.read_1_2 l1) as [[m l2]|]; simpl in Hparse; [|done].
  repeat (simplify_option_eq || case_match); lia.
Qed.

Lemma days_before_year_step y :
  Py.days_before_year (y + 1) - Py.days_before_year y
  = if Py.is_leap y then 366 else 365.
Proof.
  unfold Py.days_before_year, Py.is_leap.
  replace (y + 1 - 1) with y by lia.
  destruct (Z.eqb_spec (y mod 4) 0), (Z.eqb_spec (y mod 100) 0),
    (Z.eqb_spec (y mod 400) 0); simpl; Z.div_mod_to_equations; lia.
Qed.

Lemma day_of_year_range y m d :
  1 <= m <= 12 → 1 <= d <= Py.days_in_month y m →
  1 <= Py.days_before_month y m + d <= if Py.is_leap y then 366 else 365.
Proof.
  intros Hm Hd. unfold Py.days_in_month, Py.days_before_month in *.
  assert (m = 1 ∨ m = 2 ∨ m = 3 ∨ m = 4 ∨ m = 5 ∨ m = 6 ∨ m = 7 ∨ m = 8
          ∨ m = 9 ∨ m = 10 ∨ m = 11 ∨ m = 12) as Hcases by lia.
  destruct (Py.is_leap y);
    repeat (destruct Hcases as [->|Hcases]); try subst m; simpl in *; lia.
Qed.

Lemma isoweek1monday_range y :
  let f := Py.days_before_year y + 1 in
  f - 3 <= Py.isoweek1monday y <= f + 3
  ∧ Py.isoweek1monday y mod 7 = 1.
Proof.
  unfold Py.isoweek1monday, Py.ymd2ord, Py.days_before_month. simpl.
  set (f := Py.days_before_year y).
  match goal with |- context [3 <? ?x] => destruct (Z.ltb_spec 3 x) end;
    Z.div_mod_to_equations; lia.
Qed.

Lemma iso_week_range d : valid_date d → 1 <= Py.iso_week d <= 53.
Proof.
  intros (Hy & Hm & Hd). unfold Py.iso_week, Py.toordinal, Py.ymd2ord.
  pose proof (day_of_year_range _ _ _ Hm Hd) as Hdoy.
  pose proof (isoweek1monday_range (Py.year d)) as [H1 H1m].
  pose proof (isoweek1monday_range (Py.year d - 1)) as [H0 H0m].
  pose proof (isoweek1monday_range (Py.year d + 1)) as [H2 H2m].
  pose proof (days_before_year_step (Py.year d - 1)) as Hprev.
  pose proof (days_before_year_step (Py.year d)) as Hnext.
  replace (Py.year d - 1 + 1) with (Py.year d) in Hprev by lia.
  cbv zeta in *.
  set (a := Py.days_before_year (Py.year d)) in *.
  set (p := Py.days_before_year (Py.year d - 1)) in *.
  set (n := Py.days_before_year (Py.year d + 1)) in *.
  set (w1 := Py.isoweek1monday (Py.year d)) in *.
  set (w0 := Py.isoweek1monday (Py.year d - 1)) in *.
  set (w2 := Py.isoweek1monday (Py.year d + 1)) in *.
  set (doy := Py.days_before_month (Py.year d) (Py.month d) + Py.day d) in *.
  replace (a + Py.days_before_month (Py.year d) (Py.month d) + Py.day d)
    with (a + doy) by (unfold doy; lia).
  destruct (Py.is_leap (Py.year d)), (Py.is_leap (Py.year d - 1));
    destruct (Z.ltb_spec ((a + doy - w1) / 7) 0);
    try destruct (Z.leb_spec 52 ((a + doy - w1) / 7));
    try destruct (Z.leb_spec w2 (a + doy)); simpl; Z.div_mod_to_equations; lia.
Qed.

(** X22. The week keys of [calculate_average_hours_per_week] are ISO week
    numbers between 1 and 53, whatever the year of the date.  So, in exact
    arithmetic, the sum of the hours is divided by a number of weeks between
    1 and 53 that does not exceed the number of rows. *)
Theorem calculate_average_hours_per_week_at_most_53_weeks :
  ∀ {F : Type} `{ExactAddition F} (attendance_data : list AttendanceRecord),
    attendance_data ≠ [] →
    Forall computable attendance_data →
    (∀ r, r ∈ attendance_data → 1 <= week_of r <= 53)
    ∧ ∃ weeks : nat,
        (1 <= weeks <= 53)%nat ∧ (weeks <= length attendance_data)%nat
        ∧ calculate_average_hours_per_week attendance_data
          = Ok (num_div (py_sum (hours_worked <$> attendance_data))
                  (num_of_int (Z.of_nat weeks))).
Proof.
  intros F N E rows Hne Hrows.
  assert (∀ r, r ∈ rows → 1 <= week_of r <= 53) as Hweeks.
  { intros r Hr. rewrite Forall_forall in Hrows.
    destruct (Hrows r Hr) as [[d Hd] _]. unfold week_of. rewrite Hd.
    by apply iso_week_range, (parse_date_valid (date r)). }
  split; [done|].
  exists (length (remove_dups (week_of <$> rows))).
  split; [split|split].
  - destruct rows as [|r rows]; [done|].
    assert (week_of r ∈ remove_dups (week_of <$> r :: rows)) as Hin.
    { apply elem_of_remove_dups. by left. }
    destruct (remove_dups _); [by apply elem_of_nil in Hin|simpl; lia].
  - change 53%nat with (length (seqZ 1 53)).
    apply submseteq_length, NoDup_submseteq; [apply NoDup_remove_dups|].
    intros k [r [-> Hr]]%elem_of_remove_dups%list_elem_of_fmap.
    apply elem_of_seqZ. pose proof (Hweeks r Hr). lia.
  - rewrite <- (length_fmap week_of rows).
    apply submseteq_length, NoDup_submseteq; [apply NoDup_remove_dups|].
    intros k. by rewrite elem_of_remove_dups.
  - by apply average_formula.
Qed.

Lemma calculate_average_hours_per_week_at_most_53_weeks_witness :
  1 <= week_of (row 1 "2023-01-01" None None) <= 53.
Proof.
  refine (proj1 (calculate_average_hours_per_week_at_most_53_weeks (F := Q)
                   [row 1 "2023-01-01" None None] _ _) _ _).
  - discriminate.
  - apply Forall_singleton. split; [by eexists|]. intros ci co [=].
  - left.
Defined.

(** ** The sample year, continued *)

Section MoreSamples.
#[local] Existing Instance first_occurrence_order.

Lemma check_dates_against_events_sound_witness :
  NoDup (event_date
           <$> [ {| country := "US"; event_name := "Parade";
                    event_date := "2023-06-04" |};
                 {| country := "US"; event_name := "Concert";
                    event_date := "2023-06-12" |};
                 {| country := "US"; event_name := "Fair";
                    event_date := "2023-06-20" |};
                 {| country := "US"; event_name := "Derby";
                    event_date := "2023-06-26" |} ]).
Proof.
  refine (proj1 (check_dates_against_events_sound sample_weather sample_events
                   sample_delinquent_dates "US" _ _)).
  vm_compute. reflexivity.
Defined.

Lemma check_dates_against_events_all_excused_witness :
  check_dates_against_events [weather "US" "2023-07-03" "hurricane" 30]
    sample_events ["2023-07-03"%string] "US" = Ok [].
Proof.
  apply check_dates_against_events_all_excused.
  - intros w ->%list_elem_of_singleton _. by eexists.
  - intros e He _. unfold sample_events in He.
    repeat (apply elem_of_cons in He as [->|He]; [by eexists|]).
    by apply elem_of_nil in He.
  - intros D ->%list_elem_of_singleton.
    exists (weather "US" "2023-07-03" "hurricane" 30).
    split; [by left|]. split; [done|]. split; [done|]. split; [done|].
    left. unfold bad_weather_conditions. simpl. do 3 right. left.
Defined.

Lemma check_dates_against_events_raises_witness :
  is_Err (check_dates_against_events [weather "US" "-2023-07-03" "sunny" 30]
            sample_events [] "US").
Proof.
  apply (proj1 (check_dates_against_events_raises
                  [weather "US" "-2023-07-03" "sunny" 30] sample_events []
                  "US")).
  exists (weather "US" "-2023-07-03" "sunny" 30).
  split; [by left|]. split; reflexivity.
Defined.

Lemma identify_delinquent_employees_after_failed_request_witness :
  identify_delinquent_employees (F := Q) None None [ann] sample_attendance
  = Err UnboundLocalError.
Proof.
  refine (proj2 (proj2 (identify_delinquent_employees_after_failed_request
                          (F := Q) None None sample_attendance)
                   (or_introl eq_refl) ann [])
            employee_1_in_2023 sample_delinquent_dates _ _).
  - reflexivity.
  - reflexivity.
Defined.

Lemma identify_delinquent_employees_reports_witness :
  ∃ wayward_employees : list (Report Q),
    identify_delinquent_employees (Some sample_weather) (Some sample_events)
      [ann; bob] sample_attendance = Ok wayward_employees
    ∧ (employee <$> wayward_employees) `sublist_of` [ann; bob].
Proof.
  destruct (identify_delinquent_employees (F := Q) (Some sample_weather)
              (Some sample_events) [ann; bob] sample_attendance)
    as [wayward_employees|] eqn:Hrun; [|by vm_compute in Hrun].
  exists wayward_employees. split; [done|].
  by apply (identify_delinquent_employees_reports (F := Q)
              (Some sample_weather) (Some sample_events) [ann; bob]
              sample_attendance).
Defined.

Lemma identify_delinquent_employees_stops_at_first_exception_witness :
  is_Err (identify_delinquent_employees (F := Q) (Some sample_weather)
            (Some sample_events) [ann; cy] sample_attendance).
Proof.
  apply (identify_delinquent_employees_stops_at_first_exception (F := Q)
           (Some sample_weather) (Some sample_events) [ann; cy]
           sample_attendance cy).
  - right. left.
  - eexists. vm_compute. reflexivity.
Defined.

Lemma analyze_data_skips_employee_without_rows_witness :
  Alternate.analyze_data_step (F := Q) sample_attendance (Some sample_weather)
    (Some sample_events) [] cy = Ok [].
Proof.
  apply (analyze_data_skips_employee_without_rows (F := Q)).
  - vm_compute. reflexivity.
  - discriminate.
  - discriminate.
  - intros e He. unfold sample_events in He.
    repeat (apply elem_of_cons in He as [->|He]; [by eexists|]).
    by apply elem_of_nil in He.
Defined.

Lemma analyze_data_needs_data_witness :
  Alternate.analyze_data (F := Q) [ann] [] (Some sample_weather)
    (Some sample_events) = Err KeyError.
Proof.
  by apply (proj1 (analyze_data_needs_data (F := Q) [] (Some sample_weather)
                     (Some sample_events) ann [])).
Defined.

End MoreSamples.
